(** * ToastSpeech backend: token issuance, signup, signin and "who am I"

    A shallow embedding of [main.py].  The handlers of the FastAPI
    application are written as computations in a state-and-exception monad
    over a [world]: the clock readings a request observes, the state of the
    Supabase project behind the client object, and the list of client calls
    issued so far.  The JOSE library and the Supabase client are external to
    the repository; the first is modelled symbolically (a token is the
    signed object itself), the second is an interface whose answers the
    handlers inspect exactly as the Python code does. *)

From Stdlib Require Import ZArith List String Bool Lia.
From stdpp Require Import base option list strings gmap.

Import ListNotations.
Local Open Scope string_scope.

(** ** Values *)

(** JSON values, as carried by a token payload. *)
#[local] Set Warnings "-register-all".
Inductive json : Type :=
| JNull
| JBool (b : bool)
| JNum (n : Z)
| JStr (s : string)
| JArr (items : list json)
| JObj (members : list (string * json)).

(** Python truth value of a JSON value ([not v] is [negb (truthy v)]). *)
Definition truthy (v : json) : bool :=
  match v with
  | JNull => false
  | JBool b => b
  | JNum n => negb (n =? 0)%Z
  | JStr s => negb (String.eqb s "")
  | JArr items => match items with [] => false | _ :: _ => true end
  | JObj members => match members with [] => false | _ :: _ => true end
  end.

(** [d.get(k)]: the value under [k], or [None]. *)
Definition dict_get (d : gmap string json) (k : string) : json :=
  default JNull (d !! k).

(** ** Exceptions and results *)

Inductive exn : Type :=
| JWTError (msg : string)
| ExpiredSignatureError (msg : string)
| JWTClaimsError (msg : string)
| PyException (msg : string)
| TypeError (msg : string)
| APIError (msg : string)
| HTTPException (status_code : Z) (detail : string).

Inductive result (A : Type) : Type :=
| Return (a : A)
| Raise (e : exn).
Arguments Return {A} a.
Arguments Raise {A} e.

(** What the framework sends for the outcome of a handler: 200 for a
    returned value, the status of an [HTTPException], 500 for any other
    exception. *)
Definition http_status {A : Type} (r : result A) : Z :=
  match r with
  | Return _ => 200
  | Raise (HTTPException status_code _) => status_code
  | Raise _ => 500
  end%Z.

(** ** Configuration (lines 19-21) *)

Definition ALGORITHM : string := "HS256".
Definition ACCESS_TOKEN_EXPIRE_MINUTES : Z := 30.

(** ** The JOSE library, symbolically

    A compact serialization either is a signed object, recording the
    algorithm of its header, the key it was signed with and its payload, or
    is a string that does not parse as one. *)
Inductive token : Type :=
| Jws (alg : string) (key : string) (payload : gmap string json)
| NotAJws (raw : string).

(** [jwt.encode(claims, key, algorithm=...)]. *)
Definition jwt_encode (claims : gmap string json) (key algorithm : string) : token :=
  Jws algorithm key claims.

(** [jwt.decode(token, key, algorithms=[...])] at clock reading [now]
    (whole seconds since the epoch, the unit of the [exp] claim): the
    header algorithm must be allowed, the signature must verify under
    [key], an [exp] claim must be a number not earlier than [now], and a
    [sub] claim must be a string.  Keys are compared as written, and of
    the claims the library validates only exp and sub are: the model is
    exact for a secret the library uses as written as an HMAC key, for
    keys that differ from it as HMAC keys ([other_hmac_key] below), and
    for payloads with an integer exp and none of [validated_claims]. *)
Definition jwt_decode (t : token) (key : string) (algorithms : list string) (now : Z)
  : result (gmap string json) :=
  match t with
  | NotAJws _ => Raise (JWTError "Error decoding token headers.")
  | Jws alg k payload =>
      if negb (existsb (String.eqb alg) algorithms)
      then Raise (JWTError "The specified alg value is not allowed")
      else if negb (String.eqb k key)
      then Raise (JWTError "Signature verification failed.")
      else
        match payload !! "exp" with
        | Some (JNum exp) =>
            if (exp <? now)%Z then Raise (ExpiredSignatureError "Signature has expired.")
            else
              match payload !! "sub" with
              | None | Some (JStr _) => Return payload
              | Some _ => Raise (JWTClaimsError "Subject must be a string.")
              end
        | Some _ => Raise (JWTClaimsError "Expiration Time claim (exp) must be an integer.")
        | None =>
            match payload !! "sub" with
            | None | Some (JStr _) => Return payload
            | Some _ => Raise (JWTClaimsError "Subject must be a string.")
            end
        end
  end.

(** ** Records of the application (lines 45-76) *)

Record UserSignUp : Type := {
  su_name : string;
  su_email : string;
  su_password : string;
  su_gender : option string;
  su_age_group : option string;
  su_profession : option string;
  su_purposes : option (list string);
  su_custom_purpose : option string
}.

Record UserSignIn : Type := {
  si_email : string;
  si_password : string
}.

Record UserResponse : Type := {
  id : string;
  name : string;
  email : string;
  gender : option string;
  age_group : option string;
  profession : option string;
  purposes : option (list string);
  custom_purpose : option string;
  subscription_plan : option string;
  subscription_status : option string;
  created_at : option string
}.

Record TokenResponse : Type := {
  access_token : token;
  token_type : string;
  message : string;
  user : UserResponse
}.

(** The [profile] dictionary of [signup] (lines 124-135): the row written
    to the [users] table. *)
Record profile_row : Type := {
  p_id : string;
  p_name : string;
  p_email : string;
  p_gender : option string;
  p_age_group : option string;
  p_profession : option string;
  p_purposes : option (list string);
  p_custom_purpose : option string;
  p_subscription_plan : string;
  p_subscription_status : string
}.

(** The dictionary written to the [subscription_usage] table
    (lines 141-149). *)
Record usage_row : Type := {
  user_id : string;
  month : Z;
  year : Z;
  speeches_limit : Z;
  speeches_used : Z;
  evaluations_limit : Z;
  evaluations_used : Z
}.

(** The [UserResponse] built from [profile] and a [created_at]
    (line 157). *)
Definition UserResponse_of_profile (p : profile_row) (created : option string) : UserResponse :=
  {| id := p_id p; name := p_name p; email := p_email p;
     gender := p_gender p; age_group := p_age_group p;
     profession := p_profession p; purposes := p_purposes p;
     custom_purpose := p_custom_purpose p;
     subscription_plan := Some (p_subscription_plan p);
     subscription_status := Some (p_subscription_status p);
     created_at := created |}.

(** The [user] attribute of an auth response. *)
Record auth_user : Type := { auth_id : string }.

(** ** The Supabase client

    Every call the handlers make on the [supabase] object, with its
    arguments. *)
Inductive call : Type :=
| users_select_email_eq (email : string)
| auth_admin_create_user (email password : string) (email_confirm : bool)
| users_insert (p : profile_row)
| subscription_usage_insert (u : usage_row)
| auth_sign_in_with_password (email password : string)
| users_select_id_single (id : json).

(** The client over a project state [St].  A call returns or raises, and
    leaves the project in a new state either way.
    - [select_email]: [.table("users").select("email").eq("email", e).execute()],
      the [data] of the response, one entry per matching row;
    - [create_user], [sign_in]: the [user] of the auth response, if any;
    - [insert_user], [insert_usage]: [.insert(row).execute()];
    - [select_single]: [.table("users").select("*").eq("id", i).single().execute()],
      the [data] of the response, if any. *)
Class Provider (St : Type) : Type := {
  select_email : string -> St -> result (list string) * St;
  create_user : string -> string -> bool -> St -> result (option auth_user) * St;
  insert_user : profile_row -> St -> result unit * St;
  insert_usage : usage_row -> St -> result unit * St;
  sign_in : string -> string -> St -> result (option auth_user) * St;
  select_single : json -> St -> result (option UserResponse) * St
}.

(** ** The world of a request *)

(** The clock readings of a request: [datetime.utcnow()] in whole seconds
    since the epoch (the resolution the token library keeps of it) and as
    ISO text, and the month and year of [datetime.now()].  Readings, and
    readings plus a lifetime, are taken to lie within the range of
    [datetime]. *)
Record clock : Type := {
  utcnow : Z;
  utcnow_isoformat : string;
  now_month : Z;
  now_year : Z
}.

Record world (St : Type) : Type := World {
  clk : clock;
  db : St;
  calls : list call
}.
Arguments World {St} clk db calls.
Arguments clk {St} w.
Arguments db {St} w.
Arguments calls {St} w.

(** Computations: the world is threaded through, and survives an
    exception. *)
Definition M (St A : Type) : Type := world St -> result A * world St.

Definition ret {St A : Type} (a : A) : M St A := fun w => (Return a, w).

Definition raise {St A : Type} (e : exn) : M St A := fun w => (Raise e, w).

Definition bind {St A B : Type} (m : M St A) (k : A -> M St B) : M St B :=
  fun w =>
    match m w with
    | (Return a, w') => k a w'
    | (Raise e, w') => (Raise e, w')
    end.

(** [try: body except Exception: handler]. *)
Definition try_except {St A : Type} (body : M St A) (handler : exn -> M St A) : M St A :=
  fun w =>
    match body w with
    | (Return a, w') => (Return a, w')
    | (Raise e, w') => handler e w'
    end.

(** A pure library call that may raise. *)
Definition lift {St A : Type} (r : result A) : M St A := fun w => (r, w).

Definition read_clock {St : Type} : M St clock := fun w => (Return (clk w), w).

(** A call on the client: the answer comes from the provider, the call is
    recorded. *)
Definition request {St A : Type} (c : call) (op : St -> result A * St) : M St A :=
  fun w =>
    let (r, s') := op (db w) in
    (r, World (clk w) s' (calls w ++ [c])).

Declare Scope handler_scope.
Delimit Scope handler_scope with handler.
Notation "'let*' x ':=' m 'in' k" := (bind m (fun x => k))
  (at level 10, x name, m at level 100, k at level 200) : handler_scope.
Notation "m ';;' k" := (bind m (fun _ => k))
  (at level 100, k at level 200, right associativity) : handler_scope.

(** ** The handlers *)

Section Handlers.
Context {St : Type} `{Provider St}.
Variable SECRET_KEY : string.

Local Open Scope handler_scope.

(** [create_token] (lines 85-88).  The default of [expires_minutes] is
    [ACCESS_TOKEN_EXPIRE_MINUTES]; callers that omit it pass that.  The sum
    of line 86 is taken in [Z]: the model is exact where the clock reading
    and the expiry lie within the range of [datetime]
    ([in_datetime_range] below), outside of which line 86 raises. *)
Definition create_token (data : gmap string json) (expires_minutes : Z) : M St token :=
  let* now := read_clock in
  let expire := (utcnow now + 60 * expires_minutes)%Z in
  let to_encode := <["exp" := JNum expire]> data in
  ret (jwt_encode to_encode SECRET_KEY ALGORITHM).

(** Lines 92-95 of [get_current_user]: decode the bearer credentials and
    take the subject. *)
Definition decode_subject (credentials : token) : M St json :=
  let* now := read_clock in
  let* payload := lift (jwt_decode credentials SECRET_KEY [ALGORITHM] (utcnow now)) in
  let user_id := dict_get payload "sub" in
  if negb (truthy user_id) then raise (PyException "Invalid token")
  else ret user_id.

(** [get_current_user] (lines 90-100). *)
Definition get_current_user (credentials : token) : M St (option UserResponse) :=
  try_except
    (let* user_id := decode_subject credentials in
     let* result_data := request (users_select_id_single user_id) (select_single user_id) in
     ret result_data)
    (fun _ => raise (HTTPException 401 "Invalid or expired token")).

(** [me] (lines 185-187): the response model is built from the mapping
    [current_user]; [None] is not a mapping. *)
Definition me (credentials : token) : M St UserResponse :=
  let* current_user := get_current_user credentials in
  match current_user with
  | Some row => ret row
  | None => raise (TypeError "argument after ** must be a mapping, not NoneType")
  end.

(** [signup] (lines 107-158). *)
Definition signup (data : UserSignUp) : M St TokenResponse :=
  let* existing := request (users_select_email_eq (su_email data))
                           (select_email (su_email data)) in
  match existing with
  | _ :: _ => raise (HTTPException 400 "Email already in use")
  | [] =>
      let* auth := request (auth_admin_create_user (su_email data) (su_password data) true)
                           (create_user (su_email data) (su_password data) true) in
      match auth with
      | None => raise (HTTPException 400 "Auth creation failed")
      | Some u =>
          let user_id := auth_id u in
          let profile :=
            {| p_id := user_id;
               p_name := su_name data;
               p_email := su_email data;
               p_gender := su_gender data;
               p_age_group := su_age_group data;
               p_profession := su_profession data;
               p_purposes := su_purposes data;
               p_custom_purpose := su_custom_purpose data;
               p_subscription_plan := "free";
               p_subscription_status := "active" |} in
          request (users_insert profile) (insert_user profile) ;;
          let* now := read_clock in
          let usage :=
            {| user_id := user_id;
               month := now_month now;
               year := now_year now;
               speeches_limit := 1;
               speeches_used := 0;
               evaluations_limit := 1;
               evaluations_used := 0 |} in
          request (subscription_usage_insert usage) (insert_usage usage) ;;
          let* token :=
            create_token (<["email" := JStr (su_email data)]> {["sub" := JStr user_id]})
                         ACCESS_TOKEN_EXPIRE_MINUTES in
          let* created := read_clock in
          ret {| access_token := token;
                 token_type := "bearer";
                 message := "Signup successful";
                 user := UserResponse_of_profile profile (Some (utcnow_isoformat created)) |}
      end
  end.

(** [signin] (lines 160-183). *)
Definition signin (data : UserSignIn) : M St TokenResponse :=
  let* auth := request (auth_sign_in_with_password (si_email data) (si_password data))
                       (sign_in (si_email data) (si_password data)) in
  match auth with
  | None => raise (HTTPException 401 "Invalid credentials")
  | Some u =>
      let user_id := auth_id u in
      let* res_data := request (users_select_id_single (JStr user_id))
                               (select_single (JStr user_id)) in
      match res_data with
      | None => raise (HTTPException 404 "User profile not found")
      | Some row =>
          let* token :=
            create_token (<["email" := JStr (si_email data)]> {["sub" := JStr user_id]})
                         ACCESS_TOKEN_EXPIRE_MINUTES in
          ret {| access_token := token;
                 token_type := "bearer";
                 message := "Signin successful";
                 user := row |}
      end
  end.

End Handlers.

(** ** An in-memory Supabase project

    A provider to run the handlers against: the auth identities, the two
    tables, the identifiers the auth service hands out next, the timestamp
    it stamps on new rows, and the calls that are failing at the moment.
    [single_on_no_row] is what [.single().execute()] answers when no row
    matches; the two handlers that use it expect different answers
    ([get_current_user] an exception, [signin] a response without data), so
    the project carries the answer rather than fixing it. *)
Module InMemory.

Record identity : Type := {
  ident_id : string;
  ident_email : string;
  ident_password : string
}.

Record project : Type := {
  identities : list identity;
  users_table : list UserResponse;
  usage_table : list usage_row;
  fresh_ids : list string;
  row_timestamp : string;
  unavailable : call -> bool;
  single_on_no_row : result (option UserResponse)
}.

Definition outage : exn := APIError "service unavailable".

(** Run [op] unless the call is failing. *)
Definition guarded {A : Type} (c : call) (op : project -> result A * project)
  : project -> result A * project :=
  fun st => if unavailable st c then (Raise outage, st) else op st.

Definition set_identities (st : project) (l : list identity) (ids : list string) : project :=
  {| identities := l; users_table := users_table st; usage_table := usage_table st;
     fresh_ids := ids; row_timestamp := row_timestamp st;
     unavailable := unavailable st; single_on_no_row := single_on_no_row st |}.

Definition set_users_table (st : project) (l : list UserResponse) : project :=
  {| identities := identities st; users_table := l; usage_table := usage_table st;
     fresh_ids := fresh_ids st; row_timestamp := row_timestamp st;
     unavailable := unavailable st; single_on_no_row := single_on_no_row st |}.

Definition set_usage_table (st : project) (l : list usage_row) : project :=
  {| identities := identities st; users_table := users_table st; usage_table := l;
     fresh_ids := fresh_ids st; row_timestamp := row_timestamp st;
     unavailable := unavailable st; single_on_no_row := single_on_no_row st |}.

(** The [email] column of the rows of [users] whose email is [e]. *)
Definition emails_matching (e : string) (st : project) : list string :=
  List.filter (String.eqb e) (List.map email (users_table st)).

Definition has_id (i : json) (row : UserResponse) : bool :=
  match i with
  | JStr s => String.eqb s (id row)
  | _ => false
  end.

Definition credentials_match (e pw : string) (i : identity) : bool :=
  String.eqb e (ident_email i) && String.eqb pw (ident_password i).

(** The select of the duplicate check: every matching row. *)
Definition mem_select_email (e : string) : project -> result (list string) * project :=
  guarded (users_select_email_eq e) (fun st => (Return (emails_matching e st), st)).

(** Identity creation: refused with an error when the email has an
    identity already; without a user when no identifier can be handed
    out; otherwise a new identity under the next identifier. *)
Definition mem_create_user (e pw : string) (confirm : bool)
  : project -> result (option auth_user) * project :=
  guarded (auth_admin_create_user e pw confirm) (fun st =>
    if existsb (fun i => String.eqb e (ident_email i)) (identities st)
    then (Raise (APIError "A user with this email address has already been registered"), st)
    else
      match fresh_ids st with
      | [] => (Return None, st)
      | uid :: ids =>
          (Return (Some {| auth_id := uid |}),
           set_identities st
             (identities st ++ [{| ident_id := uid; ident_email := e; ident_password := pw |}])
             ids)
      end).

(** Inserts append the row; the [users] row gets the project's timestamp
    as [created_at]. *)
Definition mem_insert_user (p : profile_row) : project -> result unit * project :=
  guarded (users_insert p) (fun st =>
    (Return tt,
     set_users_table st
       (users_table st ++ [UserResponse_of_profile p (Some (row_timestamp st))]))).

Definition mem_insert_usage (u : usage_row) : project -> result unit * project :=
  guarded (subscription_usage_insert u) (fun st =>
    (Return tt, set_usage_table st (usage_table st ++ [u]))).

(** Password sign-in: the first identity with that email and password, or
    a response without a user. *)
Definition mem_sign_in (e pw : string) : project -> result (option auth_user) * project :=
  guarded (auth_sign_in_with_password e pw) (fun st =>
    match List.find (credentials_match e pw) (identities st) with
    | Some i => (Return (Some {| auth_id := ident_id i |}), st)
    | None => (Return None, st)
    end).

(** The [.single()] select by id: the row when exactly one matches, an
    error when several do, [single_on_no_row] when none does. *)
Definition mem_select_single (i : json) : project -> result (option UserResponse) * project :=
  guarded (users_select_id_single i) (fun st =>
    match List.filter (has_id i) (users_table st) with
    | [] => (single_on_no_row st, st)
    | [row] => (Return (Some row), st)
    | _ :: _ :: _ => (Raise (APIError "JSON object requested, multiple rows returned"), st)
    end).

#[global] Instance in_memory : Provider project := {|
  select_email := mem_select_email;
  create_user := mem_create_user;
  insert_user := mem_insert_user;
  insert_usage := mem_insert_usage;
  sign_in := mem_sign_in;
  select_single := mem_select_single
|}.

(** A new project: no identity, no row, every call served. *)
Definition empty_project (ids : list string) (stamp : string)
    (on_no_row : result (option UserResponse)) : project :=
  {| identities := []; users_table := []; usage_table := [];
     fresh_ids := ids; row_timestamp := stamp;
     unavailable := fun _ => false; single_on_no_row := on_no_row |}.

End InMemory.

(** ** Names used in the statements *)

(** The error every failure of [get_current_user] ends in (line 100). *)
Definition unauthenticated : exn := HTTPException 401 "Invalid or expired token".

(** The claims dictionary both [signup] and [signin] pass to
    [create_token] (lines 151 and 176). *)
Definition subject_claims (subject email : string) : gmap string json :=
  <["email" := JStr email]> {["sub" := JStr subject]}.

(** The profile [signup] builds for the identity [uid] (lines 124-135),
    and the calls a complete [signup] issues, in order. *)
Definition profile_of (data : UserSignUp) (uid : string) : profile_row :=
  {| p_id := uid; p_name := su_name data; p_email := su_email data;
     p_gender := su_gender data; p_age_group := su_age_group data;
     p_profession := su_profession data; p_purposes := su_purposes data;
     p_custom_purpose := su_custom_purpose data;
     p_subscription_plan := "free"; p_subscription_status := "active" |}.

Definition signup_calls (data : UserSignUp) (uid : string) (usage : usage_row) : list call :=
  [ users_select_email_eq (su_email data);
    auth_admin_create_user (su_email data) (su_password data) true;
    users_insert (profile_of data uid);
    subscription_usage_insert usage ].

(** ** Concrete inputs used in the examples *)

Definition noon : clock :=
  {| utcnow := 1700000000; utcnow_isoformat := "2023-11-14T22:13:20";
     now_month := 11; now_year := 2023 |}.

Definition at_time (t : Z) : clock :=
  {| utcnow := t; utcnow_isoformat := utcnow_isoformat noon;
     now_month := now_month noon; now_year := now_year noon |}.

Definition registration_A : UserSignUp :=
  {| su_name := "A"; su_email := "a@x.com"; su_password := "pw1";
     su_gender := None; su_age_group := None; su_profession := None;
     su_purposes := None; su_custom_purpose := None |}.

Definition secret : string := "super-secret-key".

(** A project whose [.single()] raises on an empty match, and one whose
    [.single()] answers without data. *)
Definition no_rows : exn := APIError "JSON object requested, multiple (or no) rows returned".

Definition strict_project : InMemory.project :=
  InMemory.empty_project ["u-1"; "u-2"] "2023-11-14T22:13:20+00:00" (Raise no_rows).

Definition lenient_project : InMemory.project :=
  InMemory.empty_project ["u-1"; "u-2"] "2023-11-14T22:13:20+00:00" (Return None).

Definition fresh_world (t : Z) : world InMemory.project :=
  World (at_time t) strict_project [].

(** The world the signup of A leaves behind. *)
Definition registered_world : world InMemory.project :=
  snd (signup secret registration_A (fresh_world 1700000000)).

(** A project on which inserts into [subscription_usage] fail. *)
Definition usage_outage_world : world InMemory.project :=
  World noon
    {| InMemory.identities := []; InMemory.users_table := []; InMemory.usage_table := [];
       InMemory.fresh_ids := ["u-1"]; InMemory.row_timestamp := "2023-11-14T22:13:20+00:00";
       InMemory.unavailable :=
         (fun c => match c with subscription_usage_insert _ => true | _ => false end);
       InMemory.single_on_no_row := Raise no_rows |}
    [].

Definition usage_A : usage_row :=
  {| user_id := "u-1"; month := 11; year := 2023;
     speeches_limit := 1; speeches_used := 0;
     evaluations_limit := 1; evaluations_used := 0 |}.

Definition claims_A : gmap string json := subject_claims "u-1" "a@x.com".

(** The token [create_token] makes at clock reading [t]. *)
Definition token_at (t : Z) (data : gmap string json) (expires_minutes : Z) : token :=
  Jws ALGORITHM secret (<["exp" := JNum (t + 60 * expires_minutes)]> data).

Definition response_A : TokenResponse :=
  {| access_token := token_at 1700000000 (<["email" := JStr "a@x.com"]> {["sub" := JStr "u-1"]}) 30;
     token_type := "bearer";
     message := "Signup successful";
     user := UserResponse_of_profile (profile_of registration_A "u-1")
               (Some "2023-11-14T22:13:20") |}.

(** The three ways a request to [GET /auth/me] is not authenticated: the
    credentials do not parse as a token, the token has expired, or the
    token verifies and names a subject whose lookup fails because no row
    answers it. *)
Inductive whoami_failure {St : Type} `{Provider St} (key : string) (w : world St)
  : token -> Prop :=
| syntactically_invalid (raw : string) :
    whoami_failure key w (NotAJws raw)
| expired (payload : gmap string json) (exp : Z) :
    payload !! "exp" = Some (JNum exp) ->
    (exp < utcnow (clk w))%Z ->
    whoami_failure key w (Jws ALGORITHM key payload)
| no_matching_account (payload : gmap string json) (subject : string) (e : exn) (s' : St) :
    jwt_decode (Jws ALGORITHM key payload) key [ALGORITHM] (utcnow (clk w)) = Return payload ->
    payload !! "sub" = Some (JStr subject) ->
    subject <> "" ->
    select_single (JStr subject) (db w) = (Raise e, s') ->
    whoami_failure key w (Jws ALGORITHM key payload).

(** ** Startup (lines 13-26) and the health route (lines 103-105) *)

(** The process-wide configuration read from the environment. *)
Record settings : Type := {
  supabase_url : string;
  supabase_service_key : string;
  secret_key : string
}.

(** How lines 17-24 end: past the check of line 23 with the values read,
    or with the [ValueError] of line 24. *)
Inductive startup : Type :=
| Started (cfg : settings)
| ValueError (msg : string).

(** [os.getenv(k, default)] on the environment [environ]. *)
Definition os_getenv (environ : gmap string string) (k : string) (default : option string)
  : option string :=
  match environ !! k with
  | Some v => Some v
  | None => default
  end.

(** Lines 17-24: the three variables are read, then the two of Supabase
    are tested for truth ([None] and the empty string are false).
    [environ] is the environment as [load_dotenv()] (line 14) leaves it. *)
Definition load_settings (environ : gmap string string) : startup :=
  let SUPABASE_URL := os_getenv environ "SUPABASE_URL" None in
  let SUPABASE_SERVICE_KEY := os_getenv environ "SUPABASE_SERVICE_KEY" None in
  let SECRET_KEY := os_getenv environ "JWT_SECRET_KEY" (Some "super-secret-key") in
  match SUPABASE_URL, SUPABASE_SERVICE_KEY, SECRET_KEY with
  | Some url, Some service_key, Some key =>
      if negb (truthy (JStr url)) || negb (truthy (JStr service_key))
      then ValueError "Supabase env variables not set"
      else Started {| supabase_url := url; supabase_service_key := service_key;
                      secret_key := key |}
  | _, _, _ => ValueError "Supabase env variables not set"
  end.

Record HealthResponse : Type := {
  status : string;
  timestamp : string
}.

(** [health] (lines 103-105). *)
Definition health {St : Type} : M St HealthResponse :=
  bind read_clock (fun now =>
  ret {| status := "ok"; timestamp := utcnow_isoformat now |}).

(** ** More names used in the statements *)

(** The usage row [signup] writes for the identity [uid] at clock [c]
    (lines 141-149). *)
Definition initial_usage (uid : string) (c : clock) : usage_row :=
  {| user_id := uid; month := now_month c; year := now_year c;
     speeches_limit := 1; speeches_used := 0;
     evaluations_limit := 1; evaluations_used := 0 |}.

(** The calls of a [signin] that gets as far as the profile lookup. *)
Definition signin_calls (data : UserSignIn) (uid : string) : list call :=
  [ auth_sign_in_with_password (si_email data) (si_password data);
    users_select_id_single (JStr uid) ].

(** The in-memory project after a complete [signup] of [data] under the
    identifier [uid] at clock [c], [ids] being the identifiers left. *)
Definition after_signup (st : InMemory.project) (data : UserSignUp) (uid : string)
    (ids : list string) (c : clock) : InMemory.project :=
  {| InMemory.identities :=
       InMemory.identities st ++
         [ {| InMemory.ident_id := uid; InMemory.ident_email := su_email data;
              InMemory.ident_password := su_password data |} ];
     InMemory.users_table :=
       InMemory.users_table st ++
         [ UserResponse_of_profile (profile_of data uid) (Some (InMemory.row_timestamp st)) ];
     InMemory.usage_table := InMemory.usage_table st ++ [ initial_usage uid c ];
     InMemory.fresh_ids := ids;
     InMemory.row_timestamp := InMemory.row_timestamp st;
     InMemory.unavailable := InMemory.unavailable st;
     InMemory.single_on_no_row := InMemory.single_on_no_row st |}.

(** ** More concrete inputs *)

(** A project that cannot hand out an identifier. *)
Definition no_ids_world : world InMemory.project :=
  World noon (InMemory.empty_project [] "2023-11-14T22:13:20+00:00" (Raise no_rows)) [].

(** A project on which inserts into [users] fail. *)
Definition account_outage_world : world InMemory.project :=
  World noon
    {| InMemory.identities := []; InMemory.users_table := []; InMemory.usage_table := [];
       InMemory.fresh_ids := ["u-1"]; InMemory.row_timestamp := "2023-11-14T22:13:20+00:00";
       InMemory.unavailable :=
         (fun c => match c with users_insert _ => true | _ => false end);
       InMemory.single_on_no_row := Raise no_rows |}
    [].

(** A new project whose [.single()] answers an empty match without data. *)
Definition lenient_world : world InMemory.project := World noon lenient_project [].

(** The world [registered_world] thirty minutes later, with an empty log. *)
Definition later_world (t : Z) : world InMemory.project :=
  World (at_time t) (db registered_world) [].

(** The payload of the token of A with expiry [exp]. *)
Definition token_payload_A (exp : Z) : gmap string json :=
  <["exp" := JNum exp]> claims_A.

Definition signin_A : UserSignIn := {| si_email := "a@x.com"; si_password := "pw1" |}.

(** Environments of a deployment: complete, without the signing secret,
    and with an empty service key. *)
Definition environ_full : gmap string string :=
  <["JWT_SECRET_KEY" := "s3cret"]>
    (<["SUPABASE_SERVICE_KEY" := "service-role"]>
       {["SUPABASE_URL" := "https://project.supabase.co"]}).

Definition environ_no_secret : gmap string string :=
  <["SUPABASE_SERVICE_KEY" := "service-role"]>
    {["SUPABASE_URL" := "https://project.supabase.co"]}.

Definition environ_empty_key : gmap string string :=
  <["SUPABASE_SERVICE_KEY" := ""]> {["SUPABASE_URL" := "https://project.supabase.co"]}.

(** ** The domain on which the models of the libraries are exact *)

(** The range of [datetime] in whole seconds since the epoch:
    0001-01-01T00:00:00 to 9999-12-31T23:59:59.  Line 86 raises
    [OverflowError] when the clock reading plus the lifetime leaves it;
    [create_token] is exact where both lie within it. *)
Definition datetime_min : Z := -62135596800.
Definition datetime_max : Z := 253402300799.

Definition in_datetime_range (t : Z) : Prop :=
  (datetime_min <= t <= datetime_max)%Z.

(** An HMAC key shorter than a block of the hash (64 bytes for SHA-256)
    is padded with NUL bytes, so two such keys sign alike exactly when
    they agree up to trailing NUL bytes. *)
Fixpoint strip_nul (k : string) : string :=
  match k with
  | EmptyString => EmptyString
  | String c rest =>
      match strip_nul rest with
      | EmptyString => if Ascii.eqb c Ascii.zero then EmptyString else String c EmptyString
      | String c' rest' => String c (String c' rest')
      end
  end.

Definition hmac_block_size : nat := 64.

(** [k] is a key that does not sign as [key] does, both within a block. *)
Definition other_hmac_key (k key : string) : Prop :=
  (String.length k <= hmac_block_size)%nat
  /\ (String.length key <= hmac_block_size)%nat
  /\ strip_nul k <> strip_nul key.

(** Before verifying, the library tries to read the key it is given as
    the text of a JSON value (a key set); a key that does not start the
    way a JSON text does (white space, a quote, a bracket, a brace, a
    sign, a digit, or the first letter of null, true, false, NaN or
    Infinity) is used as written. *)
Definition starts_json_text (c : Ascii.ascii) : bool :=
  existsb (Ascii.eqb c) (List.map Ascii.ascii_of_nat [9; 10; 13; 32; 34; 45; 91; 123]%nat)
  || existsb (Ascii.eqb c) (list_ascii_of_string "0123456789ntfNI").

Definition read_as_written (key : string) : Prop :=
  match key with
  | EmptyString => True
  | String c _ => starts_json_text c = false
  end.

(** The claims, besides exp and sub, that [jwt.decode] validates when
    they are present; a payload with none of them is judged on its
    signature, exp and sub alone. *)
Definition validated_claims : list string := ["aud"; "nbf"; "iat"; "jti"; "at_hash"].

Definition carries_none (data : gmap string json) (keys : list string) : Prop :=
  Forall (fun k => data !! k = None) keys.

(** ** The module body through line 26 *)

(** How loading the module ends: running, with the [ValueError] of
    line 24, or with what [create_client] raised on line 26. *)
Inductive boot : Type :=
| Running (cfg : settings)
| RaisedValueError (msg : string)
| RaisedByCreateClient (e : exn).

(** Lines 13-26.  [create_client url key] is the Supabase client
    constructor: [None] when it returns a client, the exception when it
    refuses its arguments.  The objects built after it (lines 29-42) take
    no input. *)
Definition boot_module (create_client : string -> string -> option exn)
    (environ : gmap string string) : boot :=
  match load_settings environ with
  | ValueError msg => RaisedValueError msg
  | Started cfg =>
      match create_client (supabase_url cfg) (supabase_service_key cfg) with
      | Some e => RaisedByCreateClient e
      | None => Running cfg
      end
  end.

(** A constructor that accepts the URLs that start with "http". *)
Definition http_only_client (url service_key : string) : option exn :=
  if String.prefix "http" url then None else Some (APIError "Invalid URL").

Definition environ_bad_url : gmap string string :=
  <["SUPABASE_SERVICE_KEY" := "service-role"]> {["SUPABASE_URL" := "not-a-url"]}.

(** The world a signup of A leaves when the insert into [users] fails: the
    identity of "u-1" without a profile. *)
Definition orphaned_world : world InMemory.project :=
  World noon (db (snd (signup secret registration_A account_outage_world))) [].

(** * Properties *)

(** Unfold one layer of the handler monad. *)
Ltac step_handler := unfold bind, request, read_clock, ret, raise; cbn.

(** ** The token service *)

Section Token_service.
Context {St : Type} `{Provider St}.
Variable SECRET_KEY : string.

Lemma truthy_JStr (s : string) : truthy (JStr s) = true <-> s <> "".
Proof.
  cbn. destruct (String.eqb_spec s ""); cbn; split; congruence.
Qed.

Lemma dict_get_Some (d : gmap string json) (k : string) (v : json) :
  d !! k = Some v -> dict_get d k = v.
Proof. unfold dict_get. intros ->. reflexivity. Qed.

Lemma allowed_algorithm : existsb (String.eqb ALGORITHM) [ALGORITHM] = true.
Proof. reflexivity. Qed.

(** [create_token] always returns, touches nothing, and signs the caller's
    claims with [exp] set. *)
Lemma create_token_eq (data : gmap string json) (minutes : Z) (w : world St) :
  create_token SECRET_KEY data minutes w
  = (Return (Jws ALGORITHM SECRET_KEY
               (<["exp" := JNum (utcnow (clk w) + 60 * minutes)]> data)), w).
Proof. reflexivity. Qed.

(** Decoding a token signed with the configured key and algorithm whose
    [exp] is a number and whose [sub] is a string or absent. *)
Lemma jwt_decode_own (payload : gmap string json) (exp now : Z) :
  payload !! "exp" = Some (JNum exp) ->
  (payload !! "sub" = None \/ exists s, payload !! "sub" = Some (JStr s)) ->
  jwt_decode (Jws ALGORITHM SECRET_KEY payload) SECRET_KEY [ALGORITHM] now
  = if (exp <? now)%Z then Raise (ExpiredSignatureError "Signature has expired.")
    else Return payload.
Proof.
  intros Hexp Hsub. unfold jwt_decode.
  rewrite allowed_algorithm, String.eqb_refl, Hexp. cbn.
  destruct (exp <? now)%Z; [reflexivity|].
  destruct Hsub as [-> | [s ->]]; reflexivity.
Qed.

Lemma jwt_decode_expired (alg k : string) (payload : gmap string json) (exp now : Z) e :
  payload !! "exp" = Some (JNum exp) ->
  (exp < now)%Z ->
  jwt_decode (Jws alg k payload) SECRET_KEY [ALGORITHM] now <> Return e.
Proof.
  intros Hexp Hlt. unfold jwt_decode.
  destruct (negb (existsb _ _)); [discriminate|].
  destruct (negb (String.eqb _ _)); [discriminate|].
  rewrite Hexp. apply Z.ltb_lt in Hlt. rewrite Hlt. discriminate.
Qed.

(** Whatever goes wrong while decoding, [get_current_user] answers 401
    and issues no call. *)
Lemma get_current_user_decode_error (tok : token) (w : world St) (e : exn) :
  jwt_decode tok SECRET_KEY [ALGORITHM] (utcnow (clk w)) = Raise e ->
  get_current_user SECRET_KEY tok w = (Raise unauthenticated, w).
Proof.
  intros Hdec.
  unfold get_current_user, try_except, bind, decode_subject, bind, read_clock, lift.
  rewrite Hdec. reflexivity.
Qed.

Lemma decode_subject_ok (tok : token) (w : world St) (payload : gmap string json) :
  jwt_decode tok SECRET_KEY [ALGORITHM] (utcnow (clk w)) = Return payload ->
  decode_subject SECRET_KEY tok w
  = if truthy (dict_get payload "sub") then (Return (dict_get payload "sub"), w)
    else (Raise (PyException "Invalid token"), w).
Proof.
  intros Hdec. unfold decode_subject, bind, read_clock, lift.
  rewrite Hdec. destruct (truthy _); reflexivity.
Qed.

(** Once the subject is extracted, [get_current_user] is the lookup: its
    data when it returns, 401 when it raises. *)
Lemma get_current_user_lookup (tok : token) (w : world St) (uid : json) :
  decode_subject SECRET_KEY tok w = (Return uid, w) ->
  get_current_user SECRET_KEY tok w
  = match select_single uid (db w) with
    | (Return data, s') =>
        (Return data, World (clk w) s' (calls w ++ [users_select_id_single uid]))
    | (Raise _, s') =>
        (Raise unauthenticated, World (clk w) s' (calls w ++ [users_select_id_single uid]))
    end.
Proof.
  intros Hsub. unfold get_current_user, try_except, bind. rewrite Hsub.
  unfold request. destruct (select_single uid (db w)) as [[data|e] s']; reflexivity.
Qed.

(** When the lookup returns without data, [get_current_user] returns
    [None] and [me] fails on it outside the [try]: the exception is not
    the 401. *)
Lemma me_lookup_without_data (tok : token) (w : world St) (uid : json) (s' : St) :
  decode_subject SECRET_KEY tok w = (Return uid, w) ->
  select_single uid (db w) = (Return None, s') ->
  http_status (fst (me SECRET_KEY tok w)) = 500%Z.
Proof.
  intros Hsub Hsel. unfold me, bind.
  rewrite (get_current_user_lookup _ _ _ Hsub), Hsel. reflexivity.
Qed.

Lemma subject_claims_sub (subject email : string) (v : json) :
  (<["exp" := v]> (subject_claims subject email)) !! "sub" = Some (JStr subject).
Proof.
  unfold subject_claims.
  rewrite !lookup_insert_ne by discriminate. apply lookup_singleton_eq.
Qed.

Lemma subject_claims_email (subject email : string) (v : json) :
  (<["exp" := v]> (subject_claims subject email)) !! "email" = Some (JStr email).
Proof.
  unfold subject_claims.
  rewrite lookup_insert_ne by discriminate. apply lookup_insert_eq.
Qed.


(** C4: the token issued for a subject and an email with the default
    lifetime is signed with the secret under HS256, and its payload has
    exactly the keys sub, email and exp, bound to the subject, the email
    and the clock reading plus 30 minutes; there is no aud and no iss. *)
Theorem issued_token_payload (subject email : string) (w : world St) :
  exists payload : gmap string json,
    create_token SECRET_KEY (subject_claims subject email) ACCESS_TOKEN_EXPIRE_MINUTES w
    = (Return (Jws "HS256" SECRET_KEY payload), w)
    /\ payload = <["exp" := JNum (utcnow (clk w) + 30 * 60)]>
                   (<["email" := JStr email]> {["sub" := JStr subject]})
    /\ dom payload = ({["sub"; "email"; "exp"]} : gset string)
    /\ payload !! "sub" = Some (JStr subject)
    /\ payload !! "email" = Some (JStr email)
    /\ payload !! "exp" = Some (JNum (utcnow (clk w) + 30 * 60))
    /\ payload !! "aud" = None
    /\ payload !! "iss" = None.
Proof.
  eexists. split; [apply create_token_eq|].
  assert (Hdom : dom (<["exp" := JNum (utcnow (clk w) + 60 * ACCESS_TOKEN_EXPIRE_MINUTES)]>
                        (subject_claims subject email))
                 = ({["sub"; "email"; "exp"]} : gset string)).
  { unfold subject_claims. rewrite !dom_insert_L, dom_singleton_L. set_solver. }
  split; [reflexivity|].
  split; [exact Hdom|].
  split; [apply subject_claims_sub|].
  split; [apply subject_claims_email|].
  split.
  { rewrite lookup_insert_eq. reflexivity. }
  split; apply not_elem_of_dom; rewrite Hdom; intros Hin;
    repeat (apply elem_of_union in Hin as [Hin|Hin]);
    apply elem_of_singleton in Hin; discriminate.
Qed.

(** C9: whatever dictionary [create_token] is given, with or without an
    exp of its own, and whatever lifetime that keeps the expiry within the
    range of [datetime], the token's exp is the clock reading plus
    [expires_minutes] and the other claims are the caller's; the token is
    rejected as expired at every later reading. *)
Theorem create_token_overwrites_exp (data : gmap string json) (expires_minutes : Z)
    (w : world St) :
  in_datetime_range (utcnow (clk w)) ->
  in_datetime_range (utcnow (clk w) + 60 * expires_minutes) ->
  exists payload : gmap string json,
    create_token SECRET_KEY data expires_minutes w
    = (Return (Jws ALGORITHM SECRET_KEY payload), w)
    /\ payload = <["exp" := JNum (utcnow (clk w) + 60 * expires_minutes)]> data
    /\ payload !! "exp" = Some (JNum (utcnow (clk w) + 60 * expires_minutes))
    /\ delete "exp" payload = delete "exp" data
    /\ forall (w' : world St),
         (utcnow (clk w) + 60 * expires_minutes < utcnow (clk w'))%Z ->
         get_current_user SECRET_KEY (Jws ALGORITHM SECRET_KEY payload) w'
         = (Raise unauthenticated, w').
Proof.
  intros _ _.
  eexists. split; [apply create_token_eq|].
  split; [reflexivity|].
  split; [apply lookup_insert_eq|].
  split; [apply delete_insert_eq|].
  intros w' Hlt.
  destruct (jwt_decode (Jws ALGORITHM SECRET_KEY
              (<["exp" := JNum (utcnow (clk w) + 60 * expires_minutes)]> data))
              SECRET_KEY [ALGORITHM] (utcnow (clk w'))) as [payload|e] eqn:Hdec.
  - exfalso. eapply jwt_decode_expired; [apply lookup_insert_eq | exact Hlt | exact Hdec].
  - eapply get_current_user_decode_error, Hdec.
Qed.

(** C10: a token that decodes (signed with the key, not expired) but whose
    payload has no sub, or a sub that Python takes for false, makes
    [get_current_user] and [me] fail with the same 401 as any invalid
    token; the world is unchanged, so no lookup was issued. *)
Theorem missing_subject_unauthenticated (tok : token) (payload : gmap string json)
    (w : world St) :
  jwt_decode tok SECRET_KEY [ALGORITHM] (utcnow (clk w)) = Return payload ->
  truthy (dict_get payload "sub") = false ->
  get_current_user SECRET_KEY tok w = (Raise unauthenticated, w)
  /\ me SECRET_KEY tok w = (Raise unauthenticated, w)
  /\ calls (snd (me SECRET_KEY tok w)) = calls w.
Proof.
  intros Hdec Hfalsy.
  assert (Hget : get_current_user SECRET_KEY tok w = (Raise unauthenticated, w)).
  { unfold get_current_user, try_except, bind.
    rewrite (decode_subject_ok _ _ _ Hdec), Hfalsy. reflexivity. }
  assert (Hme : me SECRET_KEY tok w = (Raise unauthenticated, w)).
  { unfold me, bind. rewrite Hget. reflexivity. }
  rewrite Hme. auto.
Qed.

(** C2: for each of the three causes (credentials that are not a token,
    an expired token, a valid token whose subject's lookup finds no
    account) [get_current_user], and with it [GET /auth/me], ends in the
    one exception [HTTPException(401, "Invalid or expired token")]. *)
Theorem whoami_failures_collapse (tok : token) (w : world St) :
  whoami_failure SECRET_KEY w tok ->
  fst (get_current_user SECRET_KEY tok w) = Raise unauthenticated
  /\ fst (me SECRET_KEY tok w) = Raise unauthenticated
  /\ http_status (fst (me SECRET_KEY tok w)) = 401%Z.
Proof.
  intros Hcause.
  assert (Hget : fst (get_current_user SECRET_KEY tok w) = Raise unauthenticated).
  { destruct Hcause as [raw | payload exp Hexp Hlt | payload subject e s' Hdec Hsub Hne Hsel].
    - erewrite get_current_user_decode_error; reflexivity.
    - destruct (jwt_decode (Jws ALGORITHM SECRET_KEY payload) SECRET_KEY [ALGORITHM]
                  (utcnow (clk w))) as [p|e] eqn:Hdec.
      + exfalso. eapply jwt_decode_expired; eauto.
      + erewrite get_current_user_decode_error; eauto.
    - assert (Hsubj : decode_subject SECRET_KEY (Jws ALGORITHM SECRET_KEY payload) w
                      = (Return (JStr subject), w)).
      { rewrite (decode_subject_ok _ _ _ Hdec), (dict_get_Some _ _ _ Hsub).
        apply truthy_JStr in Hne. rewrite Hne. reflexivity. }
      rewrite (get_current_user_lookup _ _ _ Hsubj), Hsel. reflexivity. }
  assert (Hme : fst (me SECRET_KEY tok w) = Raise unauthenticated).
  { unfold me, bind.
    destruct (get_current_user SECRET_KEY tok w) as [[cu|e] w']; cbn in Hget |- *;
      congruence. }
  rewrite Hme. auto.
Qed.

End Token_service.

(** ** The account orchestrator, over any provider *)

Section Orchestrator.
Context {St : Type} `{Provider St}.
Variable SECRET_KEY : string.

(** The duplicate check of [signup] (lines 109-111). *)
Lemma signup_existing_email (data : UserSignUp) (w : world St)
    (row : string) (rows : list string) (s1 : St) :
  select_email (su_email data) (db w) = (Return (row :: rows), s1) ->
  signup SECRET_KEY data w
  = (Raise (HTTPException 400 "Email already in use"),
     World (clk w) s1 (calls w ++ [users_select_email_eq (su_email data)])).
Proof.
  intros Hsel. unfold signup. step_handler. rewrite Hsel. reflexivity.
Qed.

(** C3: when the pre-check finds the email in the users table, [signup]
    raises [HTTPException(400, "Email already in use")]; the select is the
    only call it has issued, and the project is as the select left it:
    no identity was created and nothing was written. *)
Theorem signup_duplicate_email (data : UserSignUp) (w : world St)
    (row : string) (rows : list string) (s1 : St) :
  select_email (su_email data) (db w) = (Return (row :: rows), s1) ->
  signup SECRET_KEY data w
  = (Raise (HTTPException 400 "Email already in use"),
     World (clk w) s1 (calls w ++ [users_select_email_eq (su_email data)]))
  /\ http_status (fst (signup SECRET_KEY data w)) = 400%Z.
Proof.
  intros Hsel.
  rewrite (signup_existing_email data w row rows s1 Hsel). auto.
Qed.

(** The two failure branches [signin] has (lines 167-168 and 173-174):
    when the provider's sign-in answers without a user, [signin] raises 401
    "Invalid credentials"; when it answers with a user and the profile
    lookup answers without data, [signin] raises 404 "User profile not
    found". *)
Lemma signin_failures_distinct (data : UserSignIn) (w : world St) :
  (forall s1,
      sign_in (si_email data) (si_password data) (db w) = (Return None, s1) ->
      signin SECRET_KEY data w
      = (Raise (HTTPException 401 "Invalid credentials"),
         World (clk w) s1
           (calls w ++ [auth_sign_in_with_password (si_email data) (si_password data)])))
  /\ (forall u s1 s2,
      sign_in (si_email data) (si_password data) (db w) = (Return (Some u), s1) ->
      select_single (JStr (auth_id u)) s1 = (Return None, s2) ->
      signin SECRET_KEY data w
      = (Raise (HTTPException 404 "User profile not found"),
         World (clk w) s2
           ((calls w ++ [auth_sign_in_with_password (si_email data) (si_password data)])
              ++ [users_select_id_single (JStr (auth_id u))])))
  /\ HTTPException 401 "Invalid credentials" <> HTTPException 404 "User profile not found".
Proof.
  split; [|split].
  - intros s1 Hauth. unfold signin. step_handler. rewrite Hauth. reflexivity.
  - intros u s1 s2 Hauth Hsel. unfold signin. step_handler.
    rewrite Hauth. cbn. rewrite Hsel. reflexivity.
  - discriminate.
Qed.

(** An exception of the provider during [signin] is not caught: it is the
    handler's outcome. *)
Lemma signin_provider_exception (data : UserSignIn) (w : world St) (e : exn) :
  (forall s1,
      sign_in (si_email data) (si_password data) (db w) = (Raise e, s1) ->
      fst (signin SECRET_KEY data w) = Raise e)
  /\ (forall u s1 s2,
      sign_in (si_email data) (si_password data) (db w) = (Return (Some u), s1) ->
      select_single (JStr (auth_id u)) s1 = (Raise e, s2) ->
      fst (signin SECRET_KEY data w) = Raise e).
Proof.
  split.
  - intros s1 Hauth. unfold signin. step_handler. rewrite Hauth. reflexivity.
  - intros u s1 s2 Hauth Hsel. unfold signin. step_handler.
    rewrite Hauth. cbn. rewrite Hsel. reflexivity.
Qed.

(** What a [signup] that returns has gone through. *)
Lemma signup_success_inv (data : UserSignUp) (w w' : world St) (resp : TokenResponse) :
  signup SECRET_KEY data w = (Return resp, w') ->
  exists (u : auth_user) (s1 s2 s3 : St),
    let usage :=
      {| user_id := auth_id u; month := now_month (clk w); year := now_year (clk w);
         speeches_limit := 1; speeches_used := 0;
         evaluations_limit := 1; evaluations_used := 0 |} in
    select_email (su_email data) (db w) = (Return [], s1)
    /\ create_user (su_email data) (su_password data) true s1 = (Return (Some u), s2)
    /\ insert_user (profile_of data (auth_id u)) s2 = (Return tt, s3)
    /\ insert_usage usage s3 = (Return tt, db w')
    /\ w' = World (clk w) (db w') (calls w ++ signup_calls data (auth_id u) usage)
    /\ resp = {| access_token :=
                   Jws ALGORITHM SECRET_KEY
                     (<["exp" := JNum (utcnow (clk w) + 60 * ACCESS_TOKEN_EXPIRE_MINUTES)]>
                        (subject_claims (auth_id u) (su_email data)));
                 token_type := "bearer";
                 message := "Signup successful";
                 user := UserResponse_of_profile (profile_of data (auth_id u))
                           (Some (utcnow_isoformat (clk w))) |}.
Proof.
  unfold signup. step_handler. intros Hrun.
  destruct (select_email (su_email data) (db w)) as [[[|row rows]|e1] s1] eqn:Hsel;
    cbn in Hrun; try discriminate.
  destruct (create_user (su_email data) (su_password data) true s1) as [[[u|]|e2] s2]
    eqn:Hcreate; cbn in Hrun; try discriminate.
  destruct (insert_user _ s2) as [[[]|e3] s3] eqn:Huser; cbn in Hrun; try discriminate.
  destruct (insert_usage _ s3) as [[[]|e4] s4] eqn:Husage; cbn in Hrun; try discriminate.
  inversion Hrun; subst; clear Hrun. cbn.
  exists u, s1, s2, s3. repeat split; try assumption.
  unfold signup_calls. rewrite <- !app_assoc. reflexivity.
Qed.

(** C6: a [signup] that returns has inserted exactly one row into
    [subscription_usage], as the last of its four calls: the row of the
    new account's id, the month and year of the clock, and the counters
    1, 0, 1, 0; and that insert returned. *)
Theorem signup_persists_initial_usage (data : UserSignUp) (w w' : world St)
    (resp : TokenResponse) :
  signup SECRET_KEY data w = (Return resp, w') ->
  let usage :=
    {| user_id := id (user resp);
       month := now_month (clk w); year := now_year (clk w);
       speeches_limit := 1; speeches_used := 0;
       evaluations_limit := 1; evaluations_used := 0 |} in
  calls w' = (calls w ++
    [ users_select_email_eq (su_email data);
      auth_admin_create_user (su_email data) (su_password data) true;
      users_insert (profile_of data (id (user resp)));
      subscription_usage_insert usage ])%list
  /\ exists s3 : St, insert_usage usage s3 = (Return tt, db w').
Proof.
  intros Hrun.
  destruct (signup_success_inv _ _ _ _ Hrun)
    as (u & s1 & s2 & s3 & _ & _ & _ & Husage & Hw' & Hresp).
  subst resp. cbn in *. split.
  - rewrite Hw'. reflexivity.
  - exists s3. exact Husage.
Qed.

(** C7: when the first three steps of [signup] go through and the insert
    of the usage row raises, [signup] ends with that exception; the
    failing insert is its last call, and the project is as that call left
    it, with the account row of step 3 written and nothing undoing it. *)
Theorem signup_usage_failure_not_rolled_back (data : UserSignUp) (w : world St)
    (u : auth_user) (s1 s2 s3 s4 : St) (e : exn) :
  let usage :=
    {| user_id := auth_id u; month := now_month (clk w); year := now_year (clk w);
       speeches_limit := 1; speeches_used := 0;
       evaluations_limit := 1; evaluations_used := 0 |} in
  select_email (su_email data) (db w) = (Return [], s1) ->
  create_user (su_email data) (su_password data) true s1 = (Return (Some u), s2) ->
  insert_user (profile_of data (auth_id u)) s2 = (Return tt, s3) ->
  insert_usage usage s3 = (Raise e, s4) ->
  signup SECRET_KEY data w
  = (Raise e, World (clk w) s4 (calls w ++ signup_calls data (auth_id u) usage)).
Proof.
  intros usage Hsel Hcreate Huser Husage.
  unfold signup. step_handler.
  rewrite Hsel. cbn. rewrite Hcreate. cbn.
  fold (profile_of data (auth_id u)). rewrite Huser. cbn.
  fold usage. rewrite Husage. cbn.
  unfold signup_calls. rewrite <- !app_assoc. reflexivity.
Qed.

End Orchestrator.

(** ** The account orchestrator on the in-memory project *)

Section On_in_memory_project.
Import InMemory.
Variable SECRET_KEY : string.

(** C8: on a project that serves every call, has no account and no
    identity for the email and can hand out an identifier, [signup]
    returns (status 200) a response with an access token, token type
    "bearer" and a user view with plan "free" and status "active"; any
    later [signup] with the same email on the project it leaves raises
    [HTTPException(400, "Email already in use")]. *)
Theorem signup_fresh_then_duplicate (data data' : UserSignUp) (w : world project)
    (uid : string) (ids : list string) :
  (forall c, unavailable (db w) c = false) ->
  emails_matching (su_email data) (db w) = [] ->
  existsb (fun i => String.eqb (su_email data) (ident_email i)) (identities (db w)) = false ->
  fresh_ids (db w) = uid :: ids ->
  su_email data' = su_email data ->
  exists (resp : TokenResponse) (w' : world project),
    signup SECRET_KEY data w = (Return resp, w')
    /\ http_status (fst (signup SECRET_KEY data w)) = 200%Z
    /\ access_token resp
       = Jws ALGORITHM SECRET_KEY
           (<["exp" := JNum (utcnow (clk w) + 30 * 60)]>
              (subject_claims uid (su_email data)))
    /\ token_type resp = "bearer"
    /\ id (user resp) = uid
    /\ email (user resp) = su_email data
    /\ subscription_plan (user resp) = Some "free"
    /\ subscription_status (user resp) = Some "active"
    /\ forall (clk' : clock) (log' : list call),
         signup SECRET_KEY data' (World clk' (db w') log')
         = (Raise (HTTPException 400 "Email already in use"),
            World clk' (db w') (log' ++ [users_select_email_eq (su_email data')]))
         /\ http_status (fst (signup SECRET_KEY data' (World clk' (db w') log'))) = 400%Z.
Proof.
  intros Hup Hemail Hident Hids Hsame.
  assert (Hrun : exists resp st',
             signup SECRET_KEY data w
             = (Return resp,
                World (clk w) st'
                  (calls w ++ signup_calls data uid
                     {| user_id := uid; month := now_month (clk w);
                        year := now_year (clk w);
                        speeches_limit := 1; speeches_used := 0;
                        evaluations_limit := 1; evaluations_used := 0 |}))
             /\ resp = {| access_token :=
                            Jws ALGORITHM SECRET_KEY
                              (<["exp" := JNum (utcnow (clk w) + 30 * 60)]>
                                 (subject_claims uid (su_email data)));
                          token_type := "bearer";
                          message := "Signup successful";
                          user := UserResponse_of_profile (profile_of data uid)
                                    (Some (utcnow_isoformat (clk w))) |}
             /\ emails_matching (su_email data) st' <> []
             /\ forall c, unavailable st' c = false).
  { unfold signup, bind, request, read_clock, ret, raise. cbn.
    unfold mem_select_email, guarded. rewrite Hup, Hemail. cbn.
    unfold mem_create_user, guarded. rewrite Hup, Hident, Hids. cbn.
    unfold mem_insert_user, guarded. cbn. rewrite Hup. cbn.
    unfold mem_insert_usage, guarded. cbn. rewrite Hup. cbn.
    do 2 eexists. split; [|split; [reflexivity|split]].
    - unfold signup_calls, profile_of. rewrite <- !app_assoc. reflexivity.
    - unfold emails_matching. cbn.
      rewrite List.map_app, List.filter_app. cbn. rewrite String.eqb_refl.
      destruct (List.filter _ _); discriminate.
    - intros c. cbn. apply Hup. }
  destruct Hrun as (resp & st' & Hrun & Hresp & Hthere & Hup').
  exists resp, (World (clk w) st'
                  (calls w ++ signup_calls data uid
                     {| user_id := uid; month := now_month (clk w);
                        year := now_year (clk w);
                        speeches_limit := 1; speeches_used := 0;
                        evaluations_limit := 1; evaluations_used := 0 |})).
  split; [exact Hrun|]. rewrite Hrun. subst resp. cbn.
  repeat (split; [reflexivity|]).
  intros clk' log'.
  destruct (emails_matching (su_email data) st') as [|row rows] eqn:Hrows; [congruence|].
  rewrite (signup_existing_email SECRET_KEY data' (World clk' st' log') row rows st').
  - auto.
  - cbn. unfold mem_select_email, guarded. rewrite Hup', Hsame, Hrows. reflexivity.
Qed.

(** On a project whose [.single()] raises on an empty match, a valid token
    for a subject without a row in [users] is a cause of [whoami_failure]. *)
Lemma unknown_subject_whoami_failure (payload : gmap string json) (subject : string)
    (w : world project) (e : exn) :
  (forall c, unavailable (db w) c = false) ->
  single_on_no_row (db w) = Raise e ->
  List.filter (has_id (JStr subject)) (users_table (db w)) = [] ->
  jwt_decode (Jws ALGORITHM SECRET_KEY payload) SECRET_KEY [ALGORITHM] (utcnow (clk w))
  = Return payload ->
  payload !! "sub" = Some (JStr subject) ->
  subject <> "" ->
  whoami_failure SECRET_KEY w (Jws ALGORITHM SECRET_KEY payload).
Proof.
  intros Hup Hstrict Hnone Hdec Hsub Hne.
  apply (no_matching_account SECRET_KEY w payload subject e (db w)); try assumption.
  cbn. unfold mem_select_single, guarded. rewrite Hup, Hnone, Hstrict. reflexivity.
Qed.

(** On a project whose [.single()] answers an empty match without data, a
    sign-in for an identity without a row in [users] ends in the 404; on
    one whose [.single()] raises, in that exception. *)
Lemma orphan_identity_signin (data : UserSignIn) (w : world project) (i : identity) :
  (forall c, unavailable (db w) c = false) ->
  List.find (credentials_match (si_email data) (si_password data)) (identities (db w))
  = Some i ->
  List.filter (has_id (JStr (ident_id i))) (users_table (db w)) = [] ->
  fst (signin SECRET_KEY data w)
  = match single_on_no_row (db w) with
    | Return None => Raise (HTTPException 404 "User profile not found")
    | Return (Some row) =>
        Return {| access_token :=
                    Jws ALGORITHM SECRET_KEY
                      (<["exp" := JNum (utcnow (clk w) + 60 * ACCESS_TOKEN_EXPIRE_MINUTES)]>
                         (subject_claims (ident_id i) (si_email data)));
                  token_type := "bearer";
                  message := "Signin successful";
                  user := row |}
    | Raise e => Raise e
    end.
Proof.
  intros Hup Hfind Hnone.
  unfold signin. step_handler.
  unfold mem_sign_in, guarded. rewrite Hup, Hfind. cbn.
  unfold mem_select_single, guarded. cbn. rewrite Hup, Hnone.
  destruct (single_on_no_row (db w)) as [[row|]|e]; reflexivity.
Qed.

End On_in_memory_project.

(** ** The properties at concrete inputs *)

Section Examples.
Import InMemory.



(** C2 on the strict project: garbage, a token past its expiry, and a
    token for "u-1" before any account exists. *)
Lemma whoami_failures_collapse_witness :
  fst (me secret (NotAJws "not.a.token") (fresh_world 1700000000)) = Raise unauthenticated
  /\ fst (me secret (token_at 1700000000 claims_A 30) (fresh_world 1700001801))
     = Raise unauthenticated
  /\ fst (me secret (token_at 1700000000 claims_A 30) (fresh_world 1700000060))
     = Raise unauthenticated.
Proof.
  split; [|split].
  - apply (whoami_failures_collapse secret (NotAJws "not.a.token") (fresh_world 1700000000)).
    apply syntactically_invalid.
  - apply (whoami_failures_collapse secret (token_at 1700000000 claims_A 30)
             (fresh_world 1700001801)).
    apply (expired secret (fresh_world 1700001801) _ 1700001800).
    + vm_compute. reflexivity.
    + cbn. lia.
  - apply (whoami_failures_collapse secret (token_at 1700000000 claims_A 30)
             (fresh_world 1700000060)).
    apply (no_matching_account secret (fresh_world 1700000060) _ "u-1" no_rows strict_project).
    + vm_compute. reflexivity.
    + vm_compute. reflexivity.
    + discriminate.
    + vm_compute. reflexivity.
Defined.

(** C3 on the world the signup of A left behind: a second signup of A. *)
Lemma signup_duplicate_email_witness :
  signup secret registration_A registered_world
  = (Raise (HTTPException 400 "Email already in use"),
     World (clk registered_world) (db registered_world)
       (calls registered_world ++ [users_select_email_eq "a@x.com"]))
  /\ List.length (identities (db registered_world)) = 1%nat.
Proof.
  split.
  - apply (signup_duplicate_email secret registration_A registered_world
             "a@x.com" [] (db registered_world)).
    vm_compute. reflexivity.
  - vm_compute. reflexivity.
Defined.

(** C6 for the signup of A on a new project in November 2023. *)
Lemma signup_persists_initial_usage_witness :
  signup secret registration_A (fresh_world 1700000000) = (Return response_A, registered_world)
  /\ calls registered_world = signup_calls registration_A "u-1" usage_A
  /\ usage_table (db registered_world) = [usage_A].
Proof.
  assert (Hrun : signup secret registration_A (fresh_world 1700000000)
                 = (Return response_A, registered_world)) by (vm_compute; reflexivity).
  split; [exact Hrun|]. split.
  - apply (signup_persists_initial_usage secret registration_A
             (fresh_world 1700000000) registered_world response_A Hrun).
  - vm_compute. reflexivity.
Defined.

(** C7 on the project whose usage inserts fail: the signup of A raises,
    the row of "u-1" is in [users] and [subscription_usage] is empty. *)
Lemma signup_usage_failure_not_rolled_back_witness :
  fst (signup secret registration_A usage_outage_world) = Raise outage
  /\ List.map id (users_table (db (snd (signup secret registration_A usage_outage_world))))
     = ["u-1"]
  /\ usage_table (db (snd (signup secret registration_A usage_outage_world))) = [].
Proof.
  assert (Hrun : exists s4,
             signup secret registration_A usage_outage_world
             = (Raise outage,
                World noon s4 (signup_calls registration_A "u-1" usage_A))
             /\ List.map id (users_table s4) = ["u-1"] /\ usage_table s4 = []).
  { eexists. split.
    - eapply (signup_usage_failure_not_rolled_back secret registration_A usage_outage_world
                {| auth_id := "u-1" |}); vm_compute; reflexivity.
    - vm_compute. split; reflexivity. }
  destruct Hrun as (s4 & -> & Husers & Husage). cbn. auto.
Defined.

(** C8 for the registration of A, twice. *)
Lemma signup_fresh_then_duplicate_witness :
  exists (resp : TokenResponse) (w' : world project),
    signup secret registration_A (fresh_world 1700000000) = (Return resp, w')
    /\ http_status (fst (signup secret registration_A (fresh_world 1700000000))) = 200%Z
    /\ token_type resp = "bearer"
    /\ subscription_plan (user resp) = Some "free"
    /\ subscription_status (user resp) = Some "active"
    /\ fst (signup secret registration_A (World noon (db w') []))
       = Raise (HTTPException 400 "Email already in use").
Proof.
  destruct (signup_fresh_then_duplicate secret registration_A registration_A
              (fresh_world 1700000000) "u-1" ["u-2"])
    as (resp & w' & Hrun & Hok & _ & Hbearer & _ & _ & Hplan & Hstatus & Hagain);
    try reflexivity.
  exists resp, w'. repeat (split; [assumption|]).
  destruct (Hagain noon []) as [-> _]. reflexivity.
Defined.

(** C9 for a dictionary that asks for an expiry in the year 2286. *)
Lemma create_token_overwrites_exp_witness :
  exists payload : gmap string json,
    create_token secret (<["exp" := JNum 9999999999]> claims_A) 30 (fresh_world 1700000000)
    = (Return (Jws ALGORITHM secret payload), fresh_world 1700000000)
    /\ payload !! "exp" = Some (JNum 1700001800)
    /\ get_current_user secret (Jws ALGORITHM secret payload) (fresh_world 1700001801)
       = (Raise unauthenticated, fresh_world 1700001801).
Proof.
  destruct (create_token_overwrites_exp secret (<["exp" := JNum 9999999999]> claims_A) 30
              (fresh_world 1700000000))
    as (payload & Hissue & _ & Hexp & _ & Hlate);
    [unfold in_datetime_range, datetime_min, datetime_max; cbn; lia
    |unfold in_datetime_range, datetime_min, datetime_max; cbn; lia|].
  exists payload. split; [exact Hissue|]. split; [exact Hexp|].
  apply (Hlate (fresh_world 1700001801)). cbn. lia.
Defined.

(** C10 for a token without sub and for a token whose sub is empty. *)
Lemma missing_subject_unauthenticated_witness :
  me secret (token_at 1700000000 {["email" := JStr "a@x.com"]} 30) (fresh_world 1700000000)
  = (Raise unauthenticated, fresh_world 1700000000)
  /\ me secret (token_at 1700000000 (subject_claims "" "a@x.com") 30) (fresh_world 1700000000)
     = (Raise unauthenticated, fresh_world 1700000000).
Proof.
  split.
  - apply (missing_subject_unauthenticated secret _
             (<["exp" := JNum (1700000000 + 60 * 30)]> {["email" := JStr "a@x.com"]})
             (fresh_world 1700000000)); vm_compute; reflexivity.
  - apply (missing_subject_unauthenticated secret _
             (<["exp" := JNum (1700000000 + 60 * 30)]> (subject_claims "" "a@x.com"))
             (fresh_world 1700000000)); vm_compute; reflexivity.
Defined.

End Examples.

(** * Further properties of the handlers *)

(** ** Authentication of a request *)

Section Authentication.
Context {St : Type} `{Provider St}.
Variable SECRET_KEY : string.

Lemma me_after_error (tok : token) (w w' : world St) (e : exn) :
  get_current_user SECRET_KEY tok w = (Raise e, w') ->
  me SECRET_KEY tok w = (Raise e, w').
Proof. intros Hget. unfold me, bind. rewrite Hget. reflexivity. Qed.

Lemma jwt_decode_foreign (alg k : string) (payload : gmap string json) (now : Z) :
  alg <> ALGORITHM \/ k <> SECRET_KEY ->
  exists e, jwt_decode (Jws alg k payload) SECRET_KEY [ALGORITHM] now = Raise e.
Proof.
  intros Hforeign. unfold jwt_decode. cbn [existsb]. rewrite orb_false_r.
  destruct (String.eqb_spec alg ALGORITHM) as [Halg|Halg]; cbn [negb].
  - destruct (String.eqb_spec k SECRET_KEY) as [Hk|Hk]; cbn [negb].
    + destruct Hforeign; contradiction.
    + eauto.
  - eauto.
Qed.

(** X1: whatever the credentials and whatever the provider does,
    [get_current_user] ends in one of three ways.  The token does not
    decode, or decodes to a payload whose sub is missing or false: the 401
    is raised and no call is issued.  Or the token decodes to a payload
    with a truthy sub: one call is issued, the [.single()] select for that
    very sub, and the 401 is raised when the select raises, the select's
    data returned when it returns.  No other exception leaves it. *)
Theorem get_current_user_outcomes (tok : token) (w : world St) :
  ((exists e : exn, jwt_decode tok SECRET_KEY [ALGORITHM] (utcnow (clk w)) = Raise e)
   /\ get_current_user SECRET_KEY tok w = (Raise unauthenticated, w))
  \/ (exists payload : gmap string json,
        jwt_decode tok SECRET_KEY [ALGORITHM] (utcnow (clk w)) = Return payload
        /\ truthy (dict_get payload "sub") = false
        /\ get_current_user SECRET_KEY tok w = (Raise unauthenticated, w))
  \/ (exists (payload : gmap string json) (s' : St),
        jwt_decode tok SECRET_KEY [ALGORITHM] (utcnow (clk w)) = Return payload
        /\ truthy (dict_get payload "sub") = true
        /\ decode_subject SECRET_KEY tok w = (Return (dict_get payload "sub"), w)
        /\ ((exists e : exn,
                select_single (dict_get payload "sub") (db w) = (Raise e, s')
                /\ get_current_user SECRET_KEY tok w
                   = (Raise unauthenticated,
                      World (clk w) s'
                        (calls w ++ [users_select_id_single (dict_get payload "sub")])))
            \/ (exists data : option UserResponse,
                select_single (dict_get payload "sub") (db w) = (Return data, s')
                /\ get_current_user SECRET_KEY tok w
                   = (Return data,
                      World (clk w) s'
                        (calls w ++ [users_select_id_single (dict_get payload "sub")]))))).
Proof.
  destruct (jwt_decode tok SECRET_KEY [ALGORITHM] (utcnow (clk w))) as [payload|e] eqn:Hdec.
  - right.
    pose proof (decode_subject_ok SECRET_KEY tok w payload Hdec) as Hsubj.
    destruct (truthy (dict_get payload "sub")) eqn:Htruthy.
    + right.
      rewrite (get_current_user_lookup SECRET_KEY tok w _ Hsubj).
      destruct (select_single (dict_get payload "sub") (db w)) as [[data|e] s'] eqn:Hsel;
        exists payload, s'; repeat (split; [reflexivity || assumption|]);
        [right|left]; eauto.
    + left. exists payload. repeat (split; [reflexivity || assumption|]).
      unfold get_current_user, try_except, bind. rewrite Hsubj. reflexivity.
  - left. split; [eauto|]. eapply get_current_user_decode_error, Hdec.
Qed.

Lemma other_hmac_key_differs (k key : string) : other_hmac_key k key -> k <> key.
Proof. intros (_ & _ & Hstrip) Heq. apply Hstrip. rewrite Heq. reflexivity. Qed.

(** X2: a token whose header names another algorithm than HS256 is
    answered with the 401 by [get_current_user] and [me], whatever key
    signed it, the configured secret included; no call is issued. *)
Theorem other_algorithm_rejected (alg k : string) (payload : gmap string json)
    (w : world St) :
  alg <> ALGORITHM ->
  get_current_user SECRET_KEY (Jws alg k payload) w = (Raise unauthenticated, w)
  /\ me SECRET_KEY (Jws alg k payload) w = (Raise unauthenticated, w).
Proof.
  intros Halg.
  destruct (jwt_decode_foreign alg k payload (utcnow (clk w)) (or_introl Halg)) as [e Hdec].
  pose proof (get_current_user_decode_error SECRET_KEY _ w e Hdec) as Hget.
  split; [exact Hget | apply me_after_error, Hget].
Qed.

(** X17: when the configured secret is a string the library uses as
    written, a token signed with a key that does not sign as the secret
    does (both at most a block long and different up to trailing NUL
    bytes) is answered with the 401 by [get_current_user] and [me],
    whatever its payload; no call is issued. *)
Theorem other_key_rejected (alg k : string) (payload : gmap string json)
    (w : world St) :
  read_as_written SECRET_KEY ->
  other_hmac_key k SECRET_KEY ->
  get_current_user SECRET_KEY (Jws alg k payload) w = (Raise unauthenticated, w)
  /\ me SECRET_KEY (Jws alg k payload) w = (Raise unauthenticated, w).
Proof.
  intros _ Hkey.
  destruct (jwt_decode_foreign alg k payload (utcnow (clk w))
              (or_intror (other_hmac_key_differs k SECRET_KEY Hkey))) as [e Hdec].
  pose proof (get_current_user_decode_error SECRET_KEY _ w e Hdec) as Hget.
  split; [exact Hget | apply me_after_error, Hget].
Qed.

(** X3: of a token that decodes, [get_current_user] and [me] use the
    subject alone: two tokens with the same sub, whatever their email and
    other claims, get the same answer and leave the same world. *)
Theorem get_current_user_reads_only_sub (tok1 tok2 : token)
    (payload1 payload2 : gmap string json) (w : world St) :
  jwt_decode tok1 SECRET_KEY [ALGORITHM] (utcnow (clk w)) = Return payload1 ->
  jwt_decode tok2 SECRET_KEY [ALGORITHM] (utcnow (clk w)) = Return payload2 ->
  dict_get payload1 "sub" = dict_get payload2 "sub" ->
  get_current_user SECRET_KEY tok1 w = get_current_user SECRET_KEY tok2 w
  /\ me SECRET_KEY tok1 w = me SECRET_KEY tok2 w.
Proof.
  intros Hdec1 Hdec2 Hsame.
  assert (Hget : get_current_user SECRET_KEY tok1 w = get_current_user SECRET_KEY tok2 w).
  { unfold get_current_user, try_except, bind.
    rewrite (decode_subject_ok SECRET_KEY tok1 w payload1 Hdec1),
            (decode_subject_ok SECRET_KEY tok2 w payload2 Hdec2), Hsame.
    reflexivity. }
  split; [exact Hget|]. unfold me, bind. rewrite Hget. reflexivity.
Qed.

(** X4: when the token is valid and the select for its subject returns
    without data, [get_current_user] returns [None] instead of raising,
    and [me] fails building the response from it: the request ends in a
    [TypeError], status 500, not in the 401. *)
Theorem me_without_data_is_server_error (tok : token) (payload : gmap string json)
    (w : world St) (s' : St) :
  jwt_decode tok SECRET_KEY [ALGORITHM] (utcnow (clk w)) = Return payload ->
  truthy (dict_get payload "sub") = true ->
  select_single (dict_get payload "sub") (db w) = (Return None, s') ->
  get_current_user SECRET_KEY tok w
  = (Return None,
     World (clk w) s' (calls w ++ [users_select_id_single (dict_get payload "sub")]))
  /\ fst (me SECRET_KEY tok w)
     = Raise (TypeError "argument after ** must be a mapping, not NoneType")
  /\ http_status (fst (me SECRET_KEY tok w)) = 500%Z.
Proof.
  intros Hdec Htruthy Hsel.
  assert (Hsubj : decode_subject SECRET_KEY tok w = (Return (dict_get payload "sub"), w)).
  { rewrite (decode_subject_ok _ _ _ _ Hdec), Htruthy. reflexivity. }
  assert (Hget : get_current_user SECRET_KEY tok w
                 = (Return None,
                    World (clk w) s'
                      (calls w ++ [users_select_id_single (dict_get payload "sub")]))).
  { rewrite (get_current_user_lookup _ _ _ _ Hsubj), Hsel. reflexivity. }
  split; [exact Hget|]. unfold me, bind. rewrite Hget. auto.
Qed.


End Authentication.

(** ** Sign-up and sign-in over any provider *)

Section Orchestration.
Context {St : Type} `{Provider St}.
Variable SECRET_KEY : string.

(** What a [signin] that returns has gone through. *)
Lemma signin_success_inv (data : UserSignIn) (w w' : world St) (resp : TokenResponse) :
  signin SECRET_KEY data w = (Return resp, w') ->
  exists (u : auth_user) (row : UserResponse) (s1 : St),
    sign_in (si_email data) (si_password data) (db w) = (Return (Some u), s1)
    /\ select_single (JStr (auth_id u)) s1 = (Return (Some row), db w')
    /\ w' = World (clk w) (db w') (calls w ++ signin_calls data (auth_id u))
    /\ resp = {| access_token :=
                   Jws ALGORITHM SECRET_KEY
                     (<["exp" := JNum (utcnow (clk w) + 60 * ACCESS_TOKEN_EXPIRE_MINUTES)]>
                        (subject_claims (auth_id u) (si_email data)));
                 token_type := "bearer";
                 message := "Signin successful";
                 user := row |}.
Proof.
  unfold signin. step_handler. intros Hrun.
  destruct (sign_in (si_email data) (si_password data) (db w)) as [[[u|]|e1] s1] eqn:Hauth;
    cbn in Hrun; try discriminate.
  destruct (select_single (JStr (auth_id u)) s1) as [[[row|]|e2] s2] eqn:Hsel;
    cbn in Hrun; try discriminate.
  inversion Hrun; subst; clear Hrun. cbn.
  exists u, row, s1. repeat split; try assumption.
  unfold signin_calls. rewrite <- !app_assoc. reflexivity.
Qed.

(** X6: when the duplicate check finds nothing and the provider's identity
    creation answers without a user, [signup] raises
    [HTTPException(400, "Auth creation failed")] after those two calls;
    neither table is written. *)
Theorem signup_auth_creation_failed (data : UserSignUp) (w : world St) (s1 s2 : St) :
  select_email (su_email data) (db w) = (Return [], s1) ->
  create_user (su_email data) (su_password data) true s1 = (Return None, s2) ->
  signup SECRET_KEY data w
  = (Raise (HTTPException 400 "Auth creation failed"),
     World (clk w) s2
       (calls w ++ [ users_select_email_eq (su_email data);
                     auth_admin_create_user (su_email data) (su_password data) true ]))
  /\ http_status (fst (signup SECRET_KEY data w)) = 400%Z.
Proof.
  intros Hsel Hcreate.
  assert (Hrun : signup SECRET_KEY data w
                 = (Raise (HTTPException 400 "Auth creation failed"),
                    World (clk w) s2
                      (calls w ++ [ users_select_email_eq (su_email data);
                                    auth_admin_create_user (su_email data)
                                      (su_password data) true ]))).
  { unfold signup. step_handler. rewrite Hsel. cbn. rewrite Hcreate. cbn.
    rewrite <- app_assoc. reflexivity. }
  rewrite Hrun. auto.
Qed.

(** X7: an exception the provider raises in one of the first three steps
    of [signup] is not caught.  [signup] ends with it and issues no call
    after the failing one: none at all after a failed duplicate check, no
    table write after a failed identity creation, and after a failed
    insert of the account row neither a usage insert nor anything that
    would remove the identity created in step 2. *)
Theorem signup_provider_exception (data : UserSignUp) (w : world St) (e : exn) :
  (forall s1,
      select_email (su_email data) (db w) = (Raise e, s1) ->
      signup SECRET_KEY data w
      = (Raise e, World (clk w) s1 (calls w ++ [users_select_email_eq (su_email data)])))
  /\ (forall s1 s2,
      select_email (su_email data) (db w) = (Return [], s1) ->
      create_user (su_email data) (su_password data) true s1 = (Raise e, s2) ->
      signup SECRET_KEY data w
      = (Raise e,
         World (clk w) s2
           (calls w ++ [ users_select_email_eq (su_email data);
                         auth_admin_create_user (su_email data) (su_password data) true ])))
  /\ (forall u s1 s2 s3,
      select_email (su_email data) (db w) = (Return [], s1) ->
      create_user (su_email data) (su_password data) true s1 = (Return (Some u), s2) ->
      insert_user (profile_of data (auth_id u)) s2 = (Raise e, s3) ->
      signup SECRET_KEY data w
      = (Raise e,
         World (clk w) s3
           (calls w ++ [ users_select_email_eq (su_email data);
                         auth_admin_create_user (su_email data) (su_password data) true;
                         users_insert (profile_of data (auth_id u)) ]))).
Proof.
  split; [|split].
  - intros s1 Hsel. unfold signup. step_handler. rewrite Hsel. reflexivity.
  - intros s1 s2 Hsel Hcreate. unfold signup. step_handler.
    rewrite Hsel. cbn. rewrite Hcreate. cbn. rewrite <- app_assoc. reflexivity.
  - intros u s1 s2 s3 Hsel Hcreate Huser. unfold signup. step_handler.
    rewrite Hsel. cbn. rewrite Hcreate. cbn.
    fold (profile_of data (auth_id u)). rewrite Huser. cbn.
    rewrite <- !app_assoc. reflexivity.
Qed.

(** X8: however [signup] ends, the calls it has issued are the first one
    to four of: duplicate check, identity creation, account insert, usage
    insert, in that order; it never signs in, never reads a profile, and
    leaves the clock alone.  It returns only after all four. *)
Theorem signup_calls_prefix (data : UserSignUp) (w : world St) :
  exists (uid : string) (n : nat),
    (1 <= n <= 4)%nat
    /\ calls (snd (signup SECRET_KEY data w))
       = (calls w ++ firstn n (signup_calls data uid (initial_usage uid (clk w))))%list
    /\ clk (snd (signup SECRET_KEY data w)) = clk w
    /\ ((exists resp, fst (signup SECRET_KEY data w) = Return resp) -> n = 4%nat).
Proof.
  unfold signup. step_handler.
  destruct (select_email (su_email data) (db w)) as [[[|row rows]|e1] s1]; cbn.
  2,3: exists "", 1%nat; cbn; repeat split; try lia; intros [resp Hret]; discriminate.
  destruct (create_user (su_email data) (su_password data) true s1) as [[[u|]|e2] s2]; cbn.
  2,3: exists "", 2%nat; cbn; rewrite <- app_assoc; repeat split; try lia;
       intros [resp Hret]; discriminate.
  destruct (insert_user _ s2) as [[[]|e3] s3]; cbn.
  2: exists (auth_id u), 3%nat; cbn; rewrite <- !app_assoc; repeat split; try lia;
     intros [resp Hret]; discriminate.
  destruct (insert_usage _ s3) as [[[]|e4] s4]; cbn;
    exists (auth_id u), 4%nat; cbn; rewrite <- !app_assoc; repeat split; lia.
Qed.

(** X9: in a [signup] that returns, one identifier, the one the provider's
    identity creation answered, is the id of the account row written, the
    user_id of the usage row written, the sub of the token and the id of
    the user view; and the email of the request is the email of the row,
    of the token and of the view. *)
Theorem signup_join_key (data : UserSignUp) (w w' : world St) (resp : TokenResponse) :
  signup SECRET_KEY data w = (Return resp, w') ->
  exists (uid : string) (p : profile_row) (usage : usage_row)
         (payload : gmap string json) (s1 s2 : St),
    create_user (su_email data) (su_password data) true s1
    = (Return (Some {| auth_id := uid |}), s2)
    /\ calls w' = (calls w ++
                     [ users_select_email_eq (su_email data);
                       auth_admin_create_user (su_email data) (su_password data) true;
                       users_insert p;
                       subscription_usage_insert usage ])%list
    /\ access_token resp = Jws ALGORITHM SECRET_KEY payload
    /\ p_id p = uid /\ user_id usage = uid
    /\ payload !! "sub" = Some (JStr uid) /\ id (user resp) = uid
    /\ p_email p = su_email data
    /\ payload !! "email" = Some (JStr (su_email data))
    /\ email (user resp) = su_email data.
Proof.
  intros Hrun.
  destruct (signup_success_inv _ _ _ _ _ Hrun)
    as ([uid] & s1 & s2 & s3 & _ & Hcreate & _ & _ & Hw' & Hresp).
  cbn in *.
  exists uid, (profile_of data uid), (initial_usage uid (clk w)).
  eexists. exists s1, s2.
  split; [exact Hcreate|].
  split; [rewrite Hw'; reflexivity|].
  subst resp. cbn.
  split; [reflexivity|].
  split; [reflexivity|]. split; [reflexivity|].
  split; [apply subject_claims_sub|]. split; [reflexivity|].
  split; [reflexivity|].
  split; [apply subject_claims_email | reflexivity].
Qed.

(** X11: a [signin] that returns has issued two calls, the password
    sign-in and the [.single()] select for the id of the user it
    answered.  The token carries that id as sub and the email of the
    request as email, expires 30 minutes after the clock reading, and the
    user view is the row the select returned. *)
Theorem signin_success_shape (data : UserSignIn) (w w' : world St) (resp : TokenResponse) :
  signin SECRET_KEY data w = (Return resp, w') ->
  exists (uid : string) (payload : gmap string json) (s1 : St),
    sign_in (si_email data) (si_password data) (db w)
    = (Return (Some {| auth_id := uid |}), s1)
    /\ select_single (JStr uid) s1 = (Return (Some (user resp)), db w')
    /\ calls w' = (calls w ++
                     [ auth_sign_in_with_password (si_email data) (si_password data);
                       users_select_id_single (JStr uid) ])%list
    /\ access_token resp = Jws ALGORITHM SECRET_KEY payload
    /\ payload !! "sub" = Some (JStr uid)
    /\ payload !! "email" = Some (JStr (si_email data))
    /\ payload !! "exp" = Some (JNum (utcnow (clk w) + 30 * 60))
    /\ token_type resp = "bearer".
Proof.
  intros Hrun.
  destruct (signin_success_inv _ _ _ _ Hrun) as ([uid] & row & s1 & Hauth & Hsel & Hw' & Hresp).
  cbn in *. subst resp. cbn.
  exists uid. eexists. exists s1.
  split; [exact Hauth|]. split; [exact Hsel|].
  split; [rewrite Hw'; reflexivity|].
  split; [reflexivity|].
  split; [apply subject_claims_sub|].
  split; [apply subject_claims_email|].
  split; [rewrite lookup_insert_eq; reflexivity | reflexivity].
Qed.

(** X12: however [signin] ends, it has issued the password sign-in alone
    or the sign-in followed by one [.single()] select; it issues no
    insert and no identity creation, and it returns only after both
    calls. *)
Theorem signin_calls_read_only (data : UserSignIn) (w : world St) :
  exists (uid : string) (n : nat),
    (1 <= n <= 2)%nat
    /\ calls (snd (signin SECRET_KEY data w))
       = (calls w ++ firstn n (signin_calls data uid))%list
    /\ clk (snd (signin SECRET_KEY data w)) = clk w
    /\ ((exists resp, fst (signin SECRET_KEY data w) = Return resp) -> n = 2%nat).
Proof.
  unfold signin. step_handler.
  destruct (sign_in (si_email data) (si_password data) (db w)) as [[[u|]|e1] s1]; cbn.
  2,3: exists "", 1%nat; cbn; repeat split; try lia; intros [resp Hret]; discriminate.
  destruct (select_single (JStr (auth_id u)) s1) as [[[row|]|e2] s2]; cbn;
    exists (auth_id u), 2%nat; cbn; rewrite <- !app_assoc; repeat split; lia.
Qed.

End Orchestration.

(** ** Sign-up, sign-in and "who am I" together, on the in-memory project *)

Section Sessions_in_memory.
Import InMemory.
Variable SECRET_KEY : string.

Lemma mem_sign_in_state (e pw : string) (st : project) :
  snd (mem_sign_in e pw st) = st.
Proof.
  unfold mem_sign_in, guarded. destruct (unavailable st _); [reflexivity|].
  destruct (List.find _ _); reflexivity.
Qed.

Lemma mem_select_single_state (i : json) (st : project) :
  snd (mem_select_single i st) = st.
Proof.
  unfold mem_select_single, guarded. destruct (unavailable st _); [reflexivity|].
  destruct (List.filter _ _) as [|row [|row' rows]]; reflexivity.
Qed.

(** A complete [signup] on a project that serves every call. *)
Lemma signup_in_memory_run (data : UserSignUp) (w : world project)
    (uid : string) (ids : list string) :
  (forall c, unavailable (db w) c = false) ->
  emails_matching (su_email data) (db w) = [] ->
  existsb (fun i => String.eqb (su_email data) (ident_email i)) (identities (db w)) = false ->
  fresh_ids (db w) = uid :: ids ->
  signup SECRET_KEY data w
  = (Return {| access_token :=
                 Jws ALGORITHM SECRET_KEY
                   (<["exp" := JNum (utcnow (clk w) + 60 * ACCESS_TOKEN_EXPIRE_MINUTES)]>
                      (subject_claims uid (su_email data)));
               token_type := "bearer";
               message := "Signup successful";
               user := UserResponse_of_profile (profile_of data uid)
                         (Some (utcnow_isoformat (clk w))) |},
     World (clk w) (after_signup (db w) data uid ids (clk w))
       (calls w ++ signup_calls data uid (initial_usage uid (clk w)))).
Proof.
  intros Hup Hemail Hident Hids.
  unfold signup, bind, request, read_clock, ret, raise. cbn.
  unfold mem_select_email, guarded. rewrite Hup, Hemail. cbn.
  unfold mem_create_user, guarded. rewrite Hup, Hident, Hids. cbn.
  unfold mem_insert_user, guarded. cbn. rewrite Hup. cbn.
  unfold mem_insert_usage, guarded. cbn. rewrite Hup. cbn.
  unfold signup_calls, profile_of. rewrite <- !app_assoc. reflexivity.
Qed.

(** The row of [uid] is the one [.single()] finds after the signup. *)
Lemma select_single_after_signup (data : UserSignUp) (st : project)
    (uid : string) (ids : list string) (c : clock) :
  (forall k, unavailable st k = false) ->
  List.filter (has_id (JStr uid)) (users_table st) = [] ->
  mem_select_single (JStr uid) (after_signup st data uid ids c)
  = (Return (Some (UserResponse_of_profile (profile_of data uid) (Some (row_timestamp st)))),
     after_signup st data uid ids c).
Proof.
  intros Hup Hnone. unfold mem_select_single, guarded. cbn.
  rewrite Hup, List.filter_app, Hnone. cbn. rewrite String.eqb_refl. reflexivity.
Qed.



(** X16: on a project that serves every call but the inserts into
    [subscription_usage], a [signup] with a fresh email ends with the
    provider's exception and no usage row; and on any project that has the
    [users] table it left and serves the duplicate check, the outage over
    or not, a later [signup] with that email is refused with
    [HTTPException(400, "Email already in use")] before anything is
    written, so [signup] never supplies the missing usage row. *)
Theorem signup_retry_after_usage_failure (data : UserSignUp) (w : world project)
    (uid : string) (ids : list string) :
  (forall c, unavailable (db w) c
             = match c with subscription_usage_insert _ => true | _ => false end) ->
  emails_matching (su_email data) (db w) = [] ->
  existsb (fun i => String.eqb (su_email data) (ident_email i)) (identities (db w)) = false ->
  fresh_ids (db w) = uid :: ids ->
  exists w' : world project,
    signup SECRET_KEY data w = (Raise outage, w')
    /\ usage_table (db w') = usage_table (db w)
    /\ forall (st : project) (later : clock) (log : list call) (data' : UserSignUp),
         users_table st = users_table (db w') ->
         unavailable st (users_select_email_eq (su_email data)) = false ->
         su_email data' = su_email data ->
         signup SECRET_KEY data' (World later st log)
         = (Raise (HTTPException 400 "Email already in use"),
            World later st (log ++ [users_select_email_eq (su_email data')])).
Proof.
  intros Hup Hemail Hident Hids.
  eexists. split; [|split].
  - unfold signup, bind, request, read_clock, ret, raise. cbn.
    unfold mem_select_email, guarded. rewrite Hup, Hemail. cbn.
    unfold mem_create_user, guarded. rewrite Hup, Hident, Hids. cbn.
    unfold mem_insert_user, guarded. cbn. rewrite Hup. cbn.
    unfold mem_insert_usage, guarded. cbn. rewrite Hup. cbn.
    reflexivity.
  - reflexivity.
  - intros st later log data' Htable Hserved Hsame. cbn [db] in Htable.
    assert (Hrows : exists row rows, emails_matching (su_email data) st = row :: rows).
    { unfold emails_matching. rewrite Htable. cbn.
      rewrite List.map_app, List.filter_app. cbn. rewrite String.eqb_refl.
      destruct (List.filter _ _); eauto. }
    destruct Hrows as (row & rows & Hrows).
    apply (signup_existing_email SECRET_KEY data' (World later st log) row rows st).
    cbn. unfold mem_select_email, guarded. rewrite Hsame, Hserved, Hrows. reflexivity.
Qed.

End Sessions_in_memory.

(** ** Startup *)

Section Startup.
Context {St : Type}.

(** The module body in one expression. *)
Lemma load_settings_eq (environ : gmap string string) :
  load_settings environ
  = match environ !! "SUPABASE_URL", environ !! "SUPABASE_SERVICE_KEY" with
    | Some url, Some service_key =>
        if String.eqb url "" || String.eqb service_key ""
        then ValueError "Supabase env variables not set"
        else Started {| supabase_url := url; supabase_service_key := service_key;
                        secret_key :=
                          default "super-secret-key" (environ !! "JWT_SECRET_KEY") |}
    | _, _ => ValueError "Supabase env variables not set"
    end.
Proof.
  unfold load_settings, os_getenv.
  destruct (environ !! "SUPABASE_URL") as [url|];
    destruct (environ !! "SUPABASE_SERVICE_KEY") as [service_key|];
    destruct (environ !! "JWT_SECRET_KEY") as [key|]; cbn; try reflexivity;
    rewrite !negb_involutive; reflexivity.
Qed.

(** X14: loading the module ends in
    [ValueError("Supabase env variables not set")], before any client is
    constructed, exactly when SUPABASE_URL or SUPABASE_SERVICE_KEY is
    unset or set to the empty string.  Otherwise the client constructor
    is called on the two values and decides: the module runs when it
    returns, and its exception ends the load when it raises.  A running
    module signs with JWT_SECRET_KEY when that is set, the empty string
    included, and with "super-secret-key" when it is not. *)
Theorem boot_module_outcome (create_client : string -> string -> option exn)
    (environ : gmap string string) :
  (exists url service_key : string,
      environ !! "SUPABASE_URL" = Some url /\ url <> ""
      /\ environ !! "SUPABASE_SERVICE_KEY" = Some service_key /\ service_key <> ""
      /\ boot_module create_client environ
         = match create_client url service_key with
           | Some e => RaisedByCreateClient e
           | None =>
               Running {| supabase_url := url; supabase_service_key := service_key;
                          secret_key :=
                            default "super-secret-key" (environ !! "JWT_SECRET_KEY") |}
           end)
  \/ ((environ !! "SUPABASE_URL" = None \/ environ !! "SUPABASE_URL" = Some ""
       \/ environ !! "SUPABASE_SERVICE_KEY" = None
       \/ environ !! "SUPABASE_SERVICE_KEY" = Some "")
      /\ boot_module create_client environ
         = RaisedValueError "Supabase env variables not set").
Proof.
  unfold boot_module. rewrite load_settings_eq.
  destruct (environ !! "SUPABASE_URL") as [url|]; [|right; auto].
  destruct (environ !! "SUPABASE_SERVICE_KEY") as [service_key|]; [|right; auto].
  destruct (String.eqb_spec url "") as [Hu|Hu]; cbn [orb].
  { right. subst url. auto. }
  destruct (String.eqb_spec service_key "") as [Hk|Hk].
  { right. subst service_key. auto 6. }
  left. exists url, service_key. cbn.
  destruct (create_client url service_key); auto 6.
Qed.

(** X15: a deployment started without JWT_SECRET_KEY accepts, for any
    non-empty subject, a token that anyone signs under HS256 with the
    string "super-secret-key" and an expiry not yet passed: validation
    yields that subject. *)
Theorem default_secret_accepts_known_key (environ : gmap string string) (cfg : settings)
    (subject email : string) (exp : Z) (w : world St) :
  load_settings environ = Started cfg ->
  environ !! "JWT_SECRET_KEY" = None ->
  subject <> "" ->
  (utcnow (clk w) <= exp)%Z ->
  decode_subject (secret_key cfg)
    (jwt_encode (<["exp" := JNum exp]> (subject_claims subject email))
       "super-secret-key" "HS256") w
  = (Return (JStr subject), w).
Proof.
  intros Hstart Hunset Hne Hfresh.
  assert (Hkey : secret_key cfg = "super-secret-key").
  { revert Hstart. unfold load_settings, os_getenv. rewrite Hunset.
    destruct (environ !! "SUPABASE_URL") as [url|]; [|discriminate].
    destruct (environ !! "SUPABASE_SERVICE_KEY") as [service_key|]; [|discriminate].
    destruct (_ || _); [discriminate|]. intros Hcfg. inversion Hcfg. reflexivity. }
  rewrite Hkey. unfold jwt_encode.
  set (payload := <["exp" := JNum exp]> (subject_claims subject email)).
  assert (Hdec : jwt_decode (Jws ALGORITHM "super-secret-key" payload) "super-secret-key"
                   [ALGORITHM] (utcnow (clk w)) = Return payload).
  { unfold payload. erewrite jwt_decode_own.
    - assert (Hok : (exp <? utcnow (clk w))%Z = false) by (apply Z.ltb_ge; lia).
      rewrite Hok. reflexivity.
    - apply lookup_insert_eq.
    - right. eexists. apply subject_claims_sub. }
  change "HS256" with ALGORITHM.
  rewrite (decode_subject_ok "super-secret-key" _ w payload Hdec).
  unfold payload. rewrite (dict_get_Some _ _ _ (subject_claims_sub subject email (JNum exp))).
  apply truthy_JStr in Hne. rewrite Hne. reflexivity.
Qed.

End Startup.

(** ** The further properties at concrete inputs *)

Section More_examples.
Import InMemory.

(** X2 for a token with algorithm "none" and for one that names HS512 and
    was signed with the secret itself. *)
Lemma other_algorithm_rejected_witness :
  get_current_user secret (Jws "none" "" (token_payload_A 1700001800))
    (fresh_world 1700000000)
  = (Raise unauthenticated, fresh_world 1700000000)
  /\ me secret (Jws "HS512" secret (token_payload_A 1700001800)) (fresh_world 1700000000)
     = (Raise unauthenticated, fresh_world 1700000000).
Proof.
  split.
  - apply (other_algorithm_rejected secret "none" "" (token_payload_A 1700001800)
             (fresh_world 1700000000)).
    discriminate.
  - apply (other_algorithm_rejected secret "HS512" secret (token_payload_A 1700001800)
             (fresh_world 1700000000)).
    discriminate.
Defined.

(** X17 for a token signed under HS256 with a guessed key. *)
Lemma other_key_rejected_witness :
  me secret (Jws "HS256" "guess" (token_payload_A 1700001800)) (fresh_world 1700000000)
  = (Raise unauthenticated, fresh_world 1700000000).
Proof.
  apply (other_key_rejected secret "HS256" "guess" (token_payload_A 1700001800)
           (fresh_world 1700000000)).
  - reflexivity.
  - unfold other_hmac_key, hmac_block_size. cbn.
    split; [lia|]. split; [lia | discriminate].
Defined.

(** X3 for the token of A and a token for the same subject with another
    email, on the project where A is registered. *)
Lemma get_current_user_reads_only_sub_witness :
  me secret (Jws ALGORITHM secret (token_payload_A 1700001800)) (later_world 1700000060)
  = me secret
      (Jws ALGORITHM secret
         (<["exp" := JNum 1700009999]> (subject_claims "u-1" "other@x.com")))
      (later_world 1700000060).
Proof.
  apply (get_current_user_reads_only_sub secret _ _
           (token_payload_A 1700001800)
           (<["exp" := JNum 1700009999]> (subject_claims "u-1" "other@x.com"))
           (later_world 1700000060)); vm_compute; reflexivity.
Defined.

(** X4 on the lenient project, for a token whose subject has no row. *)
Lemma me_without_data_is_server_error_witness :
  fst (get_current_user secret (Jws ALGORITHM secret (token_payload_A 1700001800))
         lenient_world)
  = Return None
  /\ http_status (fst (me secret (Jws ALGORITHM secret (token_payload_A 1700001800))
                         lenient_world))
     = 500%Z.
Proof.
  destruct (me_without_data_is_server_error secret
              (Jws ALGORITHM secret (token_payload_A 1700001800))
              (token_payload_A 1700001800) lenient_world lenient_project)
    as (Hget & _ & Hstatus); try (vm_compute; reflexivity).
  rewrite Hget. split; [reflexivity | exact Hstatus].
Defined.


(** X6 on the project that has no identifier to hand out. *)
Lemma signup_auth_creation_failed_witness :
  signup secret registration_A no_ids_world
  = (Raise (HTTPException 400 "Auth creation failed"),
     World noon (db no_ids_world)
       [ users_select_email_eq "a@x.com"; auth_admin_create_user "a@x.com" "pw1" true ]).
Proof.
  apply (signup_auth_creation_failed secret registration_A no_ids_world
           (db no_ids_world) (db no_ids_world)); vm_compute; reflexivity.
Defined.

(** X7 on the project whose inserts into [users] fail: the identity of
    "u-1" exists and both tables are empty. *)
Lemma signup_provider_exception_witness :
  fst (signup secret registration_A account_outage_world) = Raise outage
  /\ List.map ident_id
       (identities (db (snd (signup secret registration_A account_outage_world))))
     = ["u-1"]
  /\ users_table (db (snd (signup secret registration_A account_outage_world))) = []
  /\ usage_table (db (snd (signup secret registration_A account_outage_world))) = [].
Proof.
  destruct (signup_provider_exception secret registration_A account_outage_world outage)
    as (_ & _ & Hinsert).
  assert (Hrun : exists s3,
             signup secret registration_A account_outage_world
             = (Raise outage,
                World noon s3
                  [ users_select_email_eq "a@x.com";
                    auth_admin_create_user "a@x.com" "pw1" true;
                    users_insert (profile_of registration_A "u-1") ])
             /\ List.map ident_id (identities s3) = ["u-1"]
             /\ users_table s3 = [] /\ usage_table s3 = []).
  { eexists. split.
    - eapply (Hinsert {| auth_id := "u-1" |}); vm_compute; reflexivity.
    - vm_compute. repeat split. }
  destruct Hrun as (s3 & -> & Hident & Husers & Husage). cbn. auto.
Defined.

(** X9 for the signup of A. *)
Lemma signup_join_key_witness :
  exists (uid : string) (payload : gmap string json),
    access_token response_A = Jws ALGORITHM secret payload
    /\ payload !! "sub" = Some (JStr uid)
    /\ id (user response_A) = uid
    /\ uid = "u-1".
Proof.
  assert (Hrun : signup secret registration_A (fresh_world 1700000000)
                 = (Return response_A, registered_world)) by (vm_compute; reflexivity).
  destruct (signup_join_key secret registration_A (fresh_world 1700000000)
              registered_world response_A Hrun)
    as (uid & p & usage & payload & s1 & s2 & _ & _ & Htoken & _ & _ & Hsub & Hid & _).
  exists uid, payload. repeat split; try assumption.
  rewrite <- Hid. reflexivity.
Defined.


(** X11 for the sign-in of A on the project where A is registered. *)
Lemma signin_success_shape_witness :
  exists (resp : TokenResponse) (w' : world project) (payload : gmap string json),
    signin secret signin_A registered_world = (Return resp, w')
    /\ access_token resp = Jws ALGORITHM secret payload
    /\ payload !! "sub" = Some (JStr "u-1")
    /\ payload !! "email" = Some (JStr "a@x.com")
    /\ id (user resp) = "u-1".
Proof.
  assert (Hrun : signin secret signin_A registered_world
                 = (Return {| access_token := token_at 1700000000 claims_A 30;
                              token_type := "bearer";
                              message := "Signin successful";
                              user := UserResponse_of_profile
                                        (profile_of registration_A "u-1")
                                        (Some "2023-11-14T22:13:20+00:00") |},
                    World (at_time 1700000000) (db registered_world)
                      (calls registered_world ++ signin_calls signin_A "u-1")))
    by (vm_compute; reflexivity).
  destruct (signin_success_shape secret signin_A registered_world _ _ Hrun)
    as (uid & payload & s1 & Hauth & _ & _ & Htoken & Hsub & Hemail & _).
  assert (Huid : uid = "u-1").
  { vm_compute in Hauth. inversion Hauth. reflexivity. }
  subst uid. do 3 eexists. split; [exact Hrun|].
  split; [exact Htoken|]. split; [exact Hsub|]. split; [exact Hemail | reflexivity].
Defined.


(** X14 for a complete environment, for one whose service key is empty,
    and for one whose URL the client constructor refuses. *)
Lemma boot_module_outcome_witness :
  boot_module http_only_client environ_full
  = Running {| supabase_url := "https://project.supabase.co";
               supabase_service_key := "service-role"; secret_key := "s3cret" |}
  /\ boot_module http_only_client environ_empty_key
     = RaisedValueError "Supabase env variables not set"
  /\ boot_module http_only_client environ_bad_url
     = RaisedByCreateClient (APIError "Invalid URL").
Proof.
  split; [|split].
  - destruct (boot_module_outcome http_only_client environ_full)
      as [(url & key & _ & _ & _ & _ & _) | [_ _]]; vm_compute; reflexivity.
  - destruct (boot_module_outcome http_only_client environ_empty_key)
      as [(url & key & _ & _ & Hkey & Hne & _) | [_ Hboot]].
    + vm_compute in Hkey. inversion Hkey. congruence.
    + exact Hboot.
  - destruct (boot_module_outcome http_only_client environ_bad_url)
      as [(url & key & _ & _ & _ & _ & _) | [_ _]]; vm_compute; reflexivity.
Defined.

(** X15 for a token an outsider signs for the subject "u-1". *)
Lemma default_secret_accepts_known_key_witness :
  decode_subject "super-secret-key"
    (jwt_encode (<["exp" := JNum 1700009999]> (subject_claims "u-1" "mallory@x.com"))
       "super-secret-key" "HS256")
    (later_world 1700000060)
  = (Return (JStr "u-1"), later_world 1700000060).
Proof.
  apply (default_secret_accepts_known_key environ_no_secret
           {| supabase_url := "https://project.supabase.co";
              supabase_service_key := "service-role";
              secret_key := "super-secret-key" |}
           "u-1" "mallory@x.com" 1700009999 (later_world 1700000060)).
  - vm_compute. reflexivity.
  - vm_compute. reflexivity.
  - discriminate.
  - cbn. lia.
Defined.

(** X16 on the project whose usage inserts fail, then on a project with
    the same [users] table that serves every call. *)
Lemma signup_retry_after_usage_failure_witness :
  exists w' : world project,
    signup secret registration_A usage_outage_world = (Raise outage, w')
    /\ usage_table (db w') = []
    /\ fst (signup secret registration_A
              (World noon (set_users_table strict_project (users_table (db w'))) []))
       = Raise (HTTPException 400 "Email already in use").
Proof.
  destruct (signup_retry_after_usage_failure secret registration_A usage_outage_world
              "u-1" [])
    as (w' & Hrun & Husage & Hretry); try reflexivity.
  exists w'. split; [exact Hrun|]. split; [exact Husage|].
  rewrite (Hretry (set_users_table strict_project (users_table (db w'))) noon []
             registration_A); reflexivity.
Defined.

(** C5, the failing input: the correct credentials of an identity that has
    no row in [users], on the project a signup left when its insert into
    [users] failed, where [.single()] raises on an empty match.  [signin]
    issues its two calls and ends with the provider's exception, status
    500: the 404 of line 174 is not reached. *)
Theorem signin_without_profile_server_error :
  signin secret signin_A orphaned_world
  = (Raise no_rows, World noon (db orphaned_world) (signin_calls signin_A "u-1"))
  /\ List.map ident_id (identities (db orphaned_world)) = ["u-1"]
  /\ users_table (db orphaned_world) = []
  /\ http_status (fst (signin secret signin_A orphaned_world)) = 500%Z
  /\ fst (signin secret signin_A orphaned_world)
     <> Raise (HTTPException 404 "User profile not found").
Proof.
  assert (Hrun : signin secret signin_A orphaned_world
                 = (Raise no_rows,
                    World noon (db orphaned_world) (signin_calls signin_A "u-1")))
    by (vm_compute; reflexivity).
  split; [exact Hrun|].
  split; [vm_compute; reflexivity|].
  split; [vm_compute; reflexivity|].
  rewrite Hrun. split; [reflexivity | discriminate].
Qed.

End More_examples.
